(** * Assignment aggregation for a student: [fetchStudentAssignments]

    A shallow embedding of the routine at the end of
    [src/components/teacher/AssignmentUploader.tsx] that gathers the
    courses a student is enrolled in, the assignments of those courses and
    the student's submissions, and joins them into a list of views.

    The routine is an [async] function over a realtime database.  It is
    embedded as a computation in a small monad that threads the log of
    the requests and notifications issued so far and that may throw; the
    database is a record of collections together with a schedule saying
    which requests of the call fail. *)

From Stdlib Require Import ZArith.
From stdpp Require Import gmap strings list fin_maps pretty.

#[local] Set Warnings "-register-all".
#[local] Open Scope string_scope.
#[local] Open Scope list_scope.

(** ** Values

    The values the routine handles are JSON values read from the database
    plus [undefined] (a missing field) and [null].  Numbers are taken to
    be integers; JavaScript prints those below 10^21 in plain decimal
    when they are used as a property key, as [pretty] does.  An object is
    a finite map from field names to values. *)

Inductive JValue :=
  | JUndef
  | JNull
  | JBool (b : bool)
  | JNum (n : Z)
  | JStr (s : string)
  | JObj (fields : gmap string JValue).

(** A record of a collection, the result of [childSnapshot.val()]: the
    entities of the data model are objects. *)
Abbreviation Obj := (gmap string JValue).

(** [o.f]: the field when present, [undefined] otherwise. *)
Definition get_field (o : Obj) (f : string) : JValue :=
  default JUndef (o !! f).

(** ToBoolean, as used by [!x], [!!x] and [x || y]. *)
Definition truthy (v : JValue) : bool :=
  match v with
  | JUndef | JNull => false
  | JBool b => b
  | JNum n => negb (n =? 0)%Z
  | JStr s => negb (String.eqb s EmptyString)
  | JObj _ => true
  end.

(** [a || b]. *)
Definition js_or (a b : JValue) : JValue := if truthy a then a else b.

(** [a === b].  Both comparisons of the routine have their operands read
    from two different snapshots, so two objects are never the same
    object and compare unequal. *)
Definition strict_eq (a b : JValue) : bool :=
  match a, b with
  | JUndef, JUndef => true
  | JNull, JNull => true
  | JBool x, JBool y => Bool.eqb x y
  | JNum x, JNum y => (x =? y)%Z
  | JStr x, JStr y => String.eqb x y
  | _, _ => false
  end.

(** ToString, as applied by the template literal [`courses/${courseId}`]
    and by the property access [coursesMap[courseId]].  What is stated
    about the path or the name a course id is printed to is stated for
    the ids of [plain_id] below. *)
Definition to_key (v : JValue) : string :=
  match v with
  | JUndef => "undefined"
  | JNull => "null"
  | JBool true => "true"
  | JBool false => "false"
  | JNum n => pretty n
  | JStr s => s
  | JObj _ => "[object Object]"
  end.

(** ** The database

    A collection is the list of its children, key and record, in the
    order in which [forEach] visits them. *)

Abbreviation Collection := (list (string * Obj)).

Record Database := {
  enrollments : Collection;
  courses : gmap string Obj;
  assignments : Collection;
  submissions : Collection;
}.

(** Which requests of one call throw: the two queries, and the n-th
    request of each per-course loop (counted from 0). *)
Record Faults := {
  enrollments_down : bool;
  courses_down : nat → bool;
  assignments_down : nat → bool;
  submissions_down : bool;
}.

Definition no_faults : Faults :=
  {| enrollments_down := false; courses_down := λ _, false;
     assignments_down := λ _, false; submissions_down := false |}.

(** [query(ref(db, c), orderByChild(field), equalTo(value))]: the children
    whose [field] is the string [value]. *)
Definition field_is (field value : string) (child : string * Obj) : bool :=
  match child.2 !! field with
  | Some (JStr s) => String.eqb s value
  | _ => false
  end.

Definition query_equal (field value : string) (c : Collection) : Collection :=
  List.filter (field_is field value) c.

(** [snapshot.exists()] of a collection or query snapshot. *)
Definition snap_exists (s : Collection) : bool :=
  match s with [] => false | _ :: _ => true end.

(** ** Effects *)

Inductive Event :=
  | EvQuery (path field value : string)
  | EvGet (path : string)
  | EvConsoleError (msg : string)
  | EvToastError (msg : string).

Inductive Outcome (A : Type) :=
  | Ok (a : A)
  | Throw (err : string).
Arguments Ok {A} a.
Arguments Throw {A} err.

Definition M (A : Type) : Type := list Event → Outcome A * list Event.

Definition ret {A} (a : A) : M A := λ w, (Ok a, w).

Definition bind {A B} (m : M A) (k : A → M B) : M B :=
  λ w, match m w with
       | (Ok a, w') => k a w'
       | (Throw e, w') => (Throw e, w')
       end.

Definition emit (e : Event) : M unit := λ w, (Ok tt, w ++ [e]).

Definition throw {A} (err : string) : M A := λ w, (Throw err, w).

(** [try { m } catch (e) { h e }]. *)
Definition try_catch {A} (m : M A) (h : string → M A) : M A :=
  λ w, match m w with
       | (Ok a, w') => (Ok a, w')
       | (Throw e, w') => h e w'
       end.

Notation "'let*' x ':=' m 'in' k" := (bind m (λ x, k))
  (at level 10, x name, m at level 100, k at level 200,
   format "'[v' 'let*'  x  ':='  m  'in' '/' k ']'").
Notation "m ';;' k" := (bind m (λ _, k))
  (at level 100, k at level 200, right associativity).

Definition unavailable : string := "store unavailable".

Definition unknown_course : string := "Unknown Course".
Definition msg_fetch_failed : string := "Error fetching assignments:".
Definition msg_toast : string :=
  "Failed to fetch assignments. Please try again later.".
Definition msg_course_failed (courseId : JValue) : string :=
  "Error fetching assignments for course " +:+ to_key courseId +:+ ":".

Section Aggregator.
Context (db : Database) (ft : Faults).

(** The four requests [await get(...)]. *)
Definition get_enrollments (userId : string) : M Collection :=
  emit (EvQuery "enrollments" "student_id" userId);;
  if enrollments_down ft then throw unavailable
  else ret (query_equal "student_id" userId (enrollments db)).

Definition get_course (n : nat) (courseId : JValue) : M (option Obj) :=
  emit (EvGet ("courses/" +:+ to_key courseId));;
  if courses_down ft n then throw unavailable
  else ret (courses db !! to_key courseId).

Definition get_assignments (n : nat) : M Collection :=
  emit (EvGet "assignments");;
  if assignments_down ft n then throw unavailable
  else ret (assignments db).

Definition get_submissions (userId : string) : M Collection :=
  emit (EvQuery "submissions" "user_id" userId);;
  if submissions_down ft then throw unavailable
  else ret (query_equal "user_id" userId (submissions db)).

(** [{ id: childSnapshot.key, ...childSnapshot.val() }] *)
Definition with_key (child : string * Obj) : Obj :=
  child.2 ∪ {["id" := JStr child.1]}.

(** First loop: [coursesMap[courseId] = courseSnapshot.val().title]
    for the courses that exist.  [coursesMap] is an object used as a map
    from course keys to titles; what is stated about the title found
    for a course is stated for the ids of [plain_id] below, which do not
    name a member of [Object.prototype]. *)
Fixpoint course_loop (n : nat) (courseIds : list JValue)
    (coursesMap : Obj) : M Obj :=
  match courseIds with
  | [] => ret coursesMap
  | courseId :: rest =>
      let* courseSnapshot := get_course n courseId in
      course_loop (S n) rest
        match courseSnapshot with
        | Some c => <[to_key courseId := get_field c "title"]> coursesMap
        | None => coursesMap
        end
  end.

(** The body of [assignmentsSnapshot.forEach]: the records pushed for
    one course. *)
Definition decorate (coursesMap : Obj) (courseId : JValue)
    (child : string * Obj) : Obj :=
  <["course_name" :=
      js_or (get_field coursesMap (to_key courseId)) (JStr unknown_course)]>
    (with_key child).

Definition of_course (courseId : JValue) (child : string * Obj) : bool :=
  strict_eq (get_field child.2 "course_id") courseId.

Definition collect (coursesMap : Obj) (courseId : JValue)
    (snapshot : Collection) : list Obj :=
  decorate coursesMap courseId <$> List.filter (of_course courseId) snapshot.

(** Second loop, with its inner [try]/[catch]. *)
Fixpoint assignment_loop (n : nat) (courseIds : list JValue)
    (coursesMap : Obj) (assignmentsData : list Obj) : M (list Obj) :=
  match courseIds with
  | [] => ret assignmentsData
  | courseId :: rest =>
      let* assignmentsData' :=
        try_catch
          (let* assignmentsSnapshot := get_assignments n in
           ret (if snap_exists assignmentsSnapshot
                then assignmentsData
                       ++ collect coursesMap courseId assignmentsSnapshot
                else assignmentsData))
          (λ courseError,
             emit (EvConsoleError (msg_course_failed courseId));;
             ret assignmentsData) in
      assignment_loop (S n) rest coursesMap assignmentsData'
  end.

(** [submissions.find(s => s.assignment_id === assignment.id)],
    [undefined] when there is none. *)
Definition matches (assignment s : Obj) : bool :=
  strict_eq (get_field s "assignment_id") (get_field assignment "id").

Definition find_submission (subs : list Obj) (assignment : Obj) : JValue :=
  match List.find (matches assignment) subs with
  | Some s => JObj s
  | None => JUndef
  end.

(** The callback of [assignmentsData.map]. *)
Definition join (subs : list Obj) (assignment : Obj) : Obj :=
  let submission := find_submission subs assignment in
  <["textContent" :=
      js_or (get_field assignment "description")
            (get_field assignment "textContent")]>
  (<["assignmentType" :=
      js_or (get_field assignment "assignmentType") (JStr "text")]>
  (<["submission" := js_or submission JNull]>
  (<["submitted" := JBool (truthy submission)]> assignment))).

(** [userId] is [None] when the argument is [undefined]. *)
Definition fetchStudentAssignments (userId : option string)
    : M (list Obj) :=
  match userId with
  | None | Some EmptyString => ret []
  | Some uid =>
      try_catch
        (let* enrollmentSnapshot := get_enrollments uid in
         if negb (snap_exists enrollmentSnapshot) then ret []
         else
           let courseIds :=
             (λ child : string * Obj, get_field child.2 "course_id")
               <$> enrollmentSnapshot in
           if (length courseIds =? 0)%nat then ret []
           else
             let* coursesMap := course_loop 0 courseIds ∅ in
             let* assignmentsData :=
               assignment_loop 0 courseIds coursesMap [] in
             let* submissionsSnapshot := get_submissions uid in
             let subs :=
               if snap_exists submissionsSnapshot
               then with_key <$> submissionsSnapshot else [] in
             ret (join subs <$> assignmentsData))
        (λ error,
           emit (EvConsoleError msg_fetch_failed);;
           emit (EvToastError msg_toast);;
           ret [])
  end.

End Aggregator.

(** The value a call resolves to and the events it adds, from an empty
    log. *)
Definition result_of {A} (m : M A) : Outcome A := (m []).1.
Definition events_of {A} (m : M A) : list Event := (m []).2.

(** ** Running a computation

    [runs m r evs]: from any log, [m] ends with outcome [r] and appends
    the events [evs]. *)

Definition runs {A} (m : M A) (r : Outcome A) (evs : list Event) : Prop :=
  ∀ w, m w = (r, w ++ evs).

Definition is_toast (e : Event) : bool :=
  match e with EvToastError _ => true | _ => false end.

(** No notification among the events. *)
Definition quiet (evs : list Event) : Prop :=
  Forall (λ e, is_toast e = false) evs.

(** ** The call as a function

    What the two loops compute when they are not interrupted, and what
    the call returns, written without the log. *)

Section Model.
Context (db : Database) (ft : Faults).

Fixpoint titles (courseIds : list JValue) (coursesMap : Obj) : Obj :=
  match courseIds with
  | [] => coursesMap
  | courseId :: rest =>
      titles rest
        match courses db !! to_key courseId with
        | Some c => <[to_key courseId := get_field c "title"]> coursesMap
        | None => coursesMap
        end
  end.

Fixpoint gather (n : nat) (courseIds : list JValue) (coursesMap : Obj)
    : list Obj :=
  match courseIds with
  | [] => []
  | courseId :: rest =>
      (if assignments_down ft n then []
       else collect coursesMap courseId (assignments db))
        ++ gather (S n) rest coursesMap
  end.

(** Some request of the first loop fails. *)
Definition courses_fault (n len : nat) : bool :=
  existsb (courses_down ft) (seq n len).

(** The student's enrollment records, the course ids read from them
    (one per record) and the student's submissions. *)
Definition enrolled (uid : string) : Collection :=
  query_equal "student_id" uid (enrollments db).

Definition course_ids (uid : string) : list JValue :=
  (λ child : string * Obj, get_field child.2 "course_id") <$> enrolled uid.

Definition student_subs (uid : string) : list Obj :=
  with_key <$> query_equal "user_id" uid (submissions db).

(** The outer [catch] runs. *)
Definition aborted (uid : string) : bool :=
  enrollments_down ft
  || (snap_exists (enrolled uid)
      && (courses_fault 0 (length (course_ids uid))
          || submissions_down ft)).

Definition views (uid : string) : list Obj :=
  join (student_subs uid)
    <$> gather 0 (course_ids uid) (titles (course_ids uid) ∅).
End Model.

(** ** Plain course ids

    The course ids for which a course lookup is a plain map lookup: a
    string of letters, digits, [-] and [_] (the alphabet of pushed keys)
    that does not name a member of [Object.prototype].  Such an id is a
    valid path segment, is printed as it is, and is an ordinary property
    name of [coursesMap]. *)

Definition key_char (c : Ascii.ascii) : bool :=
  let n := Ascii.N_of_ascii c in
  ((48 <=? n) && (n <=? 57) || (65 <=? n) && (n <=? 90)
   || (97 <=? n) && (n <=? 122) || (n =? 45) || (n =? 95))%N.

Definition object_prototype_members : list string :=
  ["constructor"; "hasOwnProperty"; "isPrototypeOf"; "propertyIsEnumerable";
   "toLocaleString"; "toString"; "valueOf"; "__proto__";
   "__defineGetter__"; "__defineSetter__"; "__lookupGetter__";
   "__lookupSetter__"].

Definition plain_key (s : string) : bool :=
  negb (String.eqb s EmptyString)
  && forallb key_char (String.list_ascii_of_string s)
  && negb (existsb (String.eqb s) object_prototype_members).

Definition plain_id (courseId : JValue) : bool :=
  match courseId with
  | JStr s => plain_key s
  | _ => false
  end.

(** ** The requests of a call

    The events of the two loops: one lookup per course id, and one fetch
    of the whole assignment collection per course id, followed by a
    console error when it throws. *)

Definition course_requests (courseIds : list JValue) : list Event :=
  (λ courseId, EvGet ("courses/" +:+ to_key courseId)) <$> courseIds.

Fixpoint assignment_requests (ft : Faults) (n : nat)
    (courseIds : list JValue) : list Event :=
  match courseIds with
  | [] => []
  | courseId :: rest =>
      EvGet "assignments"
        :: (if assignments_down ft n
            then [EvConsoleError (msg_course_failed courseId)] else [])
        ++ assignment_requests ft (S n) rest
  end.

(** The fields of a view that the routine computes itself. *)
Definition derived_fields : list string :=
  ["id"; "course_name"; "submitted"; "submission"; "assignmentType";
   "textContent"].

(** ** Sample databases *)

Module Demo.
Definition rec (l : list (string * JValue)) : Obj := list_to_map l.

Definition a1 : string * Obj :=
  ("a1", rec [("course_id", JStr "A"); ("title", JStr "hw1");
              ("description", JStr "D1")]).
Definition b1 : string * Obj :=
  ("b1", rec [("course_id", JStr "B"); ("title", JStr "lab");
              ("description", JStr "D2")]).
Definition x1 : string * Obj :=
  ("x1", rec [("assignment_id", JStr "b1"); ("user_id", JStr "s")]).

(** Student [s] is enrolled in [A] and [B] and has submitted [b1]. *)
Definition db1 : Database :=
  {| enrollments :=
       [("e1", rec [("student_id", JStr "s"); ("course_id", JStr "A")]);
        ("e2", rec [("student_id", JStr "s"); ("course_id", JStr "B")]);
        ("e3", rec [("student_id", JStr "t"); ("course_id", JStr "A")])];
     courses :=
       list_to_map [("A", rec [("title", JStr "Algebra")]);
                    ("B", rec [("title", JStr "Biology")])];
     assignments := [a1; b1];
     submissions := [x1] |}.

(** The two views of student [s] over [db1]. *)
Definition names1 : Obj :=
  rec [("A", JStr "Algebra"); ("B", JStr "Biology")].
Definition view_a1 : Obj :=
  join (student_subs db1 "s") (decorate names1 (JStr "A") a1).
Definition view_b1 : Obj :=
  join (student_subs db1 "s") (decorate names1 (JStr "B") b1).

(** The lookup of the first course throws. *)
Definition first_course_down : Faults :=
  {| enrollments_down := false; courses_down := λ n, (n =? 0)%nat;
     assignments_down := λ _, false; submissions_down := false |}.

(** Every fetch of the assignments throws. *)
Definition assignments_always_down : Faults :=
  {| enrollments_down := false; courses_down := λ _, false;
     assignments_down := λ _, true; submissions_down := false |}.

(** Only the first fetch of the assignments throws. *)
Definition first_assignments_down : Faults :=
  {| enrollments_down := false; courses_down := λ _, false;
     assignments_down := λ n, (n =? 0)%nat; submissions_down := false |}.

(** A record with both [description] and [textContent], stored under
    the key [k1] and carrying an [id] of its own. *)
Definition k1 : string * Obj :=
  ("k1", rec [("course_id", JStr "A"); ("id", JStr "own");
              ("description", JStr "D"); ("textContent", JStr "T")]).

Definition db2 : Database :=
  {| enrollments :=
       [("e1", rec [("student_id", JStr "s"); ("course_id", JStr "A")])];
     courses := list_to_map [("A", rec [("title", JStr "Algebra")])];
     assignments := [k1];
     submissions :=
       [("x1", rec [("assignment_id", JStr "k1"); ("user_id", JStr "s")])] |}.

Definition view_k1 : Obj :=
  join (student_subs db2 "s") (decorate (rec [("A", JStr "Algebra")]) (JStr "A") k1).

(** [db1] without the record of course [A]. *)
Definition db4 : Database :=
  {| enrollments := enrollments db1;
     courses := list_to_map [("B", rec [("title", JStr "Biology")])];
     assignments := assignments db1;
     submissions := submissions db1 |}.

(** Two enrollment records of the same student in the same course. *)
Definition db3 : Database :=
  {| enrollments :=
       [("e1", rec [("student_id", JStr "s"); ("course_id", JStr "A")]);
        ("e2", rec [("student_id", JStr "s"); ("course_id", JStr "A")])];
     courses := list_to_map [("A", rec [("title", JStr "Algebra")])];
     assignments := [a1];
     submissions := [] |}.
End Demo.

(** Further samples: an enrollment record and an assignment record
    that both lack [course_id]. *)
Module Samples.
Definition e_loose : string * Obj :=
  ("e9", Demo.rec [("student_id", JStr "s")]).
Definition a_loose : string * Obj :=
  ("a9", Demo.rec [("title", JStr "stray")]).

Definition db_loose : Database :=
  {| enrollments := [e_loose];
     courses := ∅;
     assignments := [a_loose; Demo.a1];
     submissions := [] |}.

(** The two views of student [s] over [Demo.db4], where course [A] has
    no record. *)
Definition names4 : Obj := Demo.rec [("B", JStr "Biology")].
Definition view_a4 : Obj :=
  join (student_subs Demo.db4 "s") (decorate names4 (JStr "A") Demo.a1).
Definition view_b4 : Obj :=
  join (student_subs Demo.db4 "s") (decorate names4 (JStr "B") Demo.b1).

(** [Demo.db1] with one more enrollment record and one more submission,
    both of another student. *)
Definition db1_more : Database :=
  {| enrollments :=
       enrollments Demo.db1
         ++ [("e7", Demo.rec [("student_id", JStr "t");
                              ("course_id", JStr "B")])];
     courses := courses Demo.db1;
     assignments := assignments Demo.db1;
     submissions :=
       ("x0", Demo.rec [("assignment_id", JStr "a1"); ("user_id", JStr "t")])
         :: submissions Demo.db1 |}.
End Samples.

(** * The assignment form: [AssignmentUploader]

    The component's state and its [handleSubmit] handler.  A string
    stands for a JavaScript string whose code units are all below 256;
    among those the white space and line terminators are the code units
    9 to 13, 32 and 160. *)

Module Uploader.
Import Stdlib.Strings.Ascii.

Definition js_space (c : Ascii.ascii) : bool :=
  match Ascii.N_of_ascii c with
  | 9 | 10 | 11 | 12 | 13 | 32 | 160 => true
  | _ => false
  end%N.


(** [s.trim()]. *)
Fixpoint trim_start (s : string) : string :=
  match s with
  | EmptyString => EmptyString
  | String c rest => if js_space c then trim_start rest else s
  end.









Section Form.
(** The chosen due date is a valid date; [format_date d] stands for
    [format(d, 'yyyy-MM-dd')]. *)
Context {Date : Type} (format_date : Date → string).








End Form.


End Uploader.

(** A filled form, its author and course, and a database that holds
    the record the form writes. *)
Module FormSamples.
Import Uploader.

End FormSamples.

(** * Properties *)

Section Runs.
Context {A B : Type}.
Implicit Types (m : M A) (k : A → M B).

Lemma runs_ret (a : A) : runs (ret a) (Ok a) [].
Proof. intros w. unfold ret. by rewrite app_nil_r. Qed.

Lemma runs_throw (e : string) : runs (@throw A e) (Throw e) [].
Proof. intros w. unfold throw. by rewrite app_nil_r. Qed.

Lemma runs_bind_ok m k a r e1 e2 :
  runs m (Ok a) e1 → runs (k a) r e2 → runs (bind m k) r (e1 ++ e2).
Proof.
  intros Hm Hk w. unfold bind. rewrite Hm, Hk. by rewrite app_assoc.
Qed.

Lemma runs_bind_throw m k e e1 :
  runs m (Throw e) e1 → runs (bind m k) (Throw e) e1.
Proof. intros Hm w. unfold bind. by rewrite Hm. Qed.

Lemma runs_try_ok m (h : string → M A) a e1 :
  runs m (Ok a) e1 → runs (try_catch m h) (Ok a) e1.
Proof. intros Hm w. unfold try_catch. by rewrite Hm. Qed.

Lemma runs_try_throw m (h : string → M A) e r e1 e2 :
  runs m (Throw e) e1 → runs (h e) r e2 →
  runs (try_catch m h) r (e1 ++ e2).
Proof.
  intros Hm Hh w. unfold try_catch. rewrite Hm, Hh. by rewrite app_assoc.
Qed.

Lemma runs_result m r evs : runs m r evs → result_of m = r.
Proof. intros Hm. unfold result_of. by rewrite Hm. Qed.

Lemma runs_events m r evs : runs m r evs → events_of m = evs.
Proof. intros Hm. unfold events_of. by rewrite Hm. Qed.
End Runs.

Lemma runs_emit (e : Event) : runs (emit e) (Ok tt) [e].
Proof. by intros w. Qed.

Lemma runs_emit_then {A} (e : Event) (m : M A) r evs :
  runs m r evs → runs (emit e;; m) r (e :: evs).
Proof. intros Hm. by apply (runs_bind_ok _ _ tt _ [e]); [apply runs_emit|]. Qed.

Lemma quiet_app evs1 evs2 : quiet evs1 → quiet evs2 → quiet (evs1 ++ evs2).
Proof. apply Forall_app_2. Qed.

(** ** The loops *)

Section Loops.
Context (db : Database) (ft : Faults).

Lemma course_loop_runs n courseIds coursesMap :
  courses_fault ft n (length courseIds) = false →
  ∃ evs, quiet evs ∧
    runs (course_loop db ft n courseIds coursesMap)
         (Ok (titles db courseIds coursesMap)) evs.
Proof.
  revert n coursesMap.
  induction courseIds as [|c rest IH]; intros n cm Hf; simpl.
  - exists []. split; [constructor | apply runs_ret].
  - unfold courses_fault in Hf. simpl in Hf.
    apply orb_false_iff in Hf as [Hn Hrest].
    destruct (IH (S n)
      match courses db !! to_key c with
      | Some r => <[to_key c := get_field r "title"]> cm
      | None => cm
      end Hrest) as (evs & Hq & Hr).
    exists (EvGet ("courses/" +:+ to_key c) :: evs). split.
    + by constructor.
    + apply (runs_bind_ok _ _ (courses db !! to_key c) _
               [EvGet ("courses/" +:+ to_key c)] evs); [|done].
      unfold get_course. rewrite Hn.
      apply (runs_emit_then _ _ _ []), runs_ret.
Qed.

Lemma course_loop_throws n courseIds coursesMap :
  courses_fault ft n (length courseIds) = true →
  ∃ evs, quiet evs ∧
    runs (course_loop db ft n courseIds coursesMap) (Throw unavailable) evs.
Proof.
  revert n coursesMap.
  induction courseIds as [|c rest IH]; intros n cm Hf; simpl.
  - discriminate.
  - unfold courses_fault in Hf. simpl in Hf.
    destruct (courses_down ft n) eqn:Hn.
    + exists [EvGet ("courses/" +:+ to_key c)]. split.
      * by repeat constructor.
      * apply runs_bind_throw. unfold get_course. rewrite Hn.
        apply (runs_emit_then _ _ _ []), runs_throw.
    + destruct (IH (S n)
        match courses db !! to_key c with
        | Some r => <[to_key c := get_field r "title"]> cm
        | None => cm
        end Hf) as (evs & Hq & Hr).
      exists (EvGet ("courses/" +:+ to_key c) :: evs). split.
      * by constructor.
      * apply (runs_bind_ok _ _ (courses db !! to_key c) _
                 [EvGet ("courses/" +:+ to_key c)] evs); [|done].
        unfold get_course. rewrite Hn.
        apply (runs_emit_then _ _ _ []), runs_ret.
Qed.

Lemma collect_nil coursesMap courseId : collect coursesMap courseId [] = [].
Proof. done. Qed.

Lemma assignment_loop_runs n courseIds coursesMap acc :
  ∃ evs, quiet evs ∧
    runs (assignment_loop db ft n courseIds coursesMap acc)
         (Ok (acc ++ gather db ft n courseIds coursesMap)) evs.
Proof.
  revert n acc.
  induction courseIds as [|c rest IH]; intros n acc; simpl.
  - exists []. split; [constructor|]. rewrite app_nil_r. apply runs_ret.
  - destruct (assignments_down ft n) eqn:Hn.
    + destruct (IH (S n) acc) as (evs & Hq & Hr).
      exists ([EvGet "assignments"; EvConsoleError (msg_course_failed c)]
                ++ evs).
      split; [apply quiet_app; [by repeat constructor | done]|].
      eapply runs_bind_ok; [|exact Hr].
      apply (runs_try_throw _ _ unavailable _ [EvGet "assignments"]
               [EvConsoleError (msg_course_failed c)]).
      * apply runs_bind_throw. unfold get_assignments. rewrite Hn.
        apply (runs_emit_then _ _ _ []), runs_throw.
      * apply (runs_emit_then _ _ _ []), runs_ret.
    + destruct (IH (S n) (acc ++ collect coursesMap c (assignments db)))
        as (evs & Hq & Hr).
      exists ([EvGet "assignments"] ++ evs).
      split; [apply quiet_app; [by repeat constructor | done]|].
      rewrite app_assoc.
      eapply runs_bind_ok; [|exact Hr].
      apply runs_try_ok.
      replace (acc ++ collect coursesMap c (assignments db))
        with (if snap_exists (assignments db)
              then acc ++ collect coursesMap c (assignments db) else acc).
      * apply (runs_bind_ok _ _ (assignments db) _ [EvGet "assignments"] []);
          [|apply runs_ret].
        unfold get_assignments. rewrite Hn.
        apply (runs_emit_then _ _ _ []), runs_ret.
      * destruct (assignments db); [|done].
        by rewrite collect_nil, app_nil_r.
Qed.
End Loops.

(** ** The whole call *)

Section Fetch.
Context (db : Database) (ft : Faults).

Lemma get_enrollments_runs uid :
  runs (get_enrollments db ft uid)
       (if enrollments_down ft then Throw unavailable else Ok (enrolled db uid))
       [EvQuery "enrollments" "student_id" uid].
Proof.
  unfold get_enrollments. apply (runs_emit_then _ _ _ []).
  destruct (enrollments_down ft); [apply runs_throw | apply runs_ret].
Qed.

Lemma get_submissions_runs uid :
  runs (get_submissions db ft uid)
       (if submissions_down ft then Throw unavailable
        else Ok (query_equal "user_id" uid (submissions db)))
       [EvQuery "submissions" "user_id" uid].
Proof.
  unfold get_submissions. apply (runs_emit_then _ _ _ []).
  destruct (submissions_down ft); [apply runs_throw | apply runs_ret].
Qed.

Lemma subs_of_snapshot (snapshot : Collection) :
  (if snap_exists snapshot then with_key <$> snapshot else [])
  = with_key <$> snapshot.
Proof. by destruct snapshot. Qed.

Lemma handler_runs :
  runs (emit (EvConsoleError msg_fetch_failed);;
        emit (EvToastError msg_toast);; ret ([] : list Obj))
       (Ok []) [EvConsoleError msg_fetch_failed; EvToastError msg_toast].
Proof. do 2 apply runs_emit_then. apply runs_ret. Qed.

Lemma toast_in_handler evs :
  EvToastError msg_toast
    ∈ evs ++ [EvConsoleError msg_fetch_failed; EvToastError msg_toast].
Proof. rewrite elem_of_app. right. set_solver. Qed.

Lemma course_ids_length uid :
  snap_exists (enrolled db uid) = true →
  (length (course_ids db uid) =? 0)%nat = false.
Proof.
  unfold course_ids. rewrite length_fmap. by destruct (enrolled db uid).
Qed.

(** The part of the [try] block after the guards on the enrollments. *)
Lemma fetch_tail_runs uid :
  ∃ evs,
    runs (let* coursesMap := course_loop db ft 0 (course_ids db uid) ∅ in
          let* assignmentsData :=
            assignment_loop db ft 0 (course_ids db uid) coursesMap [] in
          let* submissionsSnapshot := get_submissions db ft uid in
          let subs :=
            if snap_exists submissionsSnapshot
            then with_key <$> submissionsSnapshot else [] in
          ret (join subs <$> assignmentsData))
         (if courses_fault ft 0 (length (course_ids db uid))
              || submissions_down ft
          then Throw unavailable else Ok (views db ft uid))
         evs
    ∧ quiet evs.
Proof.
  destruct (courses_fault ft 0 (length (course_ids db uid))) eqn:Hcf; simpl.
  { destruct (course_loop_throws db ft 0 (course_ids db uid) ∅ Hcf)
      as (evs & Hq & Hr).
    exists evs. split; [|done]. apply runs_bind_throw, Hr. }
  destruct (course_loop_runs db ft 0 (course_ids db uid) ∅ Hcf)
    as (evs1 & Hq1 & Hr1).
  destruct (assignment_loop_runs db ft 0 (course_ids db uid)
              (titles db (course_ids db uid) ∅) []) as (evs2 & Hq2 & Hr2).
  pose proof (get_submissions_runs uid) as Hs.
  eexists. split.
  - eapply runs_bind_ok; [exact Hr1|].
    eapply runs_bind_ok; [exact Hr2|].
    destruct (submissions_down ft).
    + apply runs_bind_throw, Hs.
    + apply (runs_bind_ok _ _ _ _ _ [] Hs). cbv zeta.
      rewrite subs_of_snapshot. apply runs_ret.
  - repeat apply quiet_app; try done; by repeat constructor.
Qed.

Lemma fetch_runs uid :
  uid ≠ EmptyString →
  ∃ evs,
    runs (fetchStudentAssignments db ft (Some uid))
         (Ok (if aborted db ft uid then [] else
              if snap_exists (enrolled db uid) then views db ft uid else []))
         evs
    ∧ (if aborted db ft uid then EvToastError msg_toast ∈ evs else quiet evs).
Proof.
  intros Hne. destruct uid as [|a u]; [done|].
  set (uid := String a u). unfold fetchStudentAssignments. fold uid.
  unfold aborted.
  pose proof (get_enrollments_runs uid) as He.
  destruct (enrollments_down ft); cbn [orb].
  { eexists. split; [|apply toast_in_handler].
    eapply runs_try_throw; [|apply handler_runs].
    apply runs_bind_throw, He. }
  destruct (snap_exists (enrolled db uid)) eqn:Hex; cbn [andb].
  2:{ exists [EvQuery "enrollments" "student_id" uid]. split.
      - apply runs_try_ok.
        apply (runs_bind_ok _ _ _ _ _ [] He). cbv beta.
        rewrite Hex. apply runs_ret.
      - by repeat constructor. }
  destruct (fetch_tail_runs uid) as (evs & Hr & Hq).
  destruct (courses_fault ft 0 (length (course_ids db uid))
            || submissions_down ft).
  - eexists. split; [|apply toast_in_handler].
    eapply runs_try_throw; [|apply handler_runs].
    eapply runs_bind_ok; [exact He|]. cbv beta zeta.
    rewrite Hex. cbn [negb]. fold (course_ids db uid).
    rewrite (course_ids_length uid Hex). exact Hr.
  - eexists. split.
    + apply runs_try_ok.
      eapply runs_bind_ok; [exact He|]. cbv beta zeta.
      rewrite Hex. cbn [negb]. fold (course_ids db uid).
      rewrite (course_ids_length uid Hex). exact Hr.
    + apply quiet_app; [by repeat constructor | done].
Qed.
End Fetch.

(** ** Fields of the records built along the way *)

Lemma elem_of_List_filter {A} (P : A → bool) (l : list A) (x : A) :
  x ∈ List.filter P l ↔ x ∈ l ∧ P x = true.
Proof. rewrite !list_elem_of_In. apply filter_In. Qed.

Lemma field_is_true field value child :
  field_is field value child = true ↔ child.2 !! field = Some (JStr value).
Proof.
  unfold field_is. destruct (child.2 !! field) as [[]|]; try (split; done).
  rewrite String.eqb_eq. split; congruence.
Qed.

Lemma elem_of_query_equal field value (c : Collection) child :
  child ∈ query_equal field value c
  ↔ child ∈ c ∧ child.2 !! field = Some (JStr value).
Proof. unfold query_equal. by rewrite elem_of_List_filter, field_is_true. Qed.

Lemma strict_eq_eq a b : strict_eq a b = true → a = b.
Proof.
  destruct a, b; simpl; try done.
  - intros ?%Bool.eqb_prop. congruence.
  - intros ?%Z.eqb_eq. congruence.
  - intros ?%String.eqb_eq. congruence.
Qed.

Lemma with_key_id k (r : Obj) :
  with_key (k, r) !! "id" = Some (default (JStr k) (r !! "id")).
Proof.
  unfold with_key. simpl. destruct (r !! "id") as [x|] eqn:E; simpl.
  - by apply lookup_union_Some_l.
  - rewrite lookup_union_r by done. apply lookup_singleton_eq.
Qed.

Lemma with_key_other k (r : Obj) f :
  f ≠ "id" → with_key (k, r) !! f = r !! f.
Proof.
  intros Hf. unfold with_key. simpl.
  destruct (r !! f) as [x|] eqn:E.
  - by apply lookup_union_Some_l.
  - rewrite lookup_union_r by done. by apply lookup_singleton_ne.
Qed.

Lemma decorate_id coursesMap courseId k (r : Obj) :
  decorate coursesMap courseId (k, r) !! "id"
  = Some (default (JStr k) (r !! "id")).
Proof. unfold decorate. rewrite lookup_insert_ne by done. apply with_key_id. Qed.

Lemma decorate_course_name coursesMap courseId child :
  decorate coursesMap courseId child !! "course_name"
  = Some (js_or (get_field coursesMap (to_key courseId)) (JStr unknown_course)).
Proof. unfold decorate. apply lookup_insert_eq. Qed.

Lemma decorate_other coursesMap courseId k (r : Obj) f :
  f ≠ "id" → f ≠ "course_name" →
  decorate coursesMap courseId (k, r) !! f = r !! f.
Proof.
  intros H1 H2. unfold decorate. rewrite lookup_insert_ne by done.
  by apply with_key_other.
Qed.

Section Join.
Context (subs : list Obj) (assignment : Obj).

Lemma join_submitted :
  join subs assignment !! "submitted"
  = Some (JBool (truthy (find_submission subs assignment))).
Proof.
  unfold join. repeat (rewrite lookup_insert_ne by done).
  apply lookup_insert_eq.
Qed.

Lemma join_submission :
  join subs assignment !! "submission"
  = Some (js_or (find_submission subs assignment) JNull).
Proof.
  unfold join. repeat (rewrite lookup_insert_ne by done).
  apply lookup_insert_eq.
Qed.

Lemma join_assignmentType :
  join subs assignment !! "assignmentType"
  = Some (js_or (get_field assignment "assignmentType") (JStr "text")).
Proof.
  unfold join. repeat (rewrite lookup_insert_ne by done).
  apply lookup_insert_eq.
Qed.

Lemma join_textContent :
  join subs assignment !! "textContent"
  = Some (js_or (get_field assignment "description")
                (get_field assignment "textContent")).
Proof. unfold join. by rewrite lookup_insert_eq. Qed.

Lemma join_other f :
  f ≠ "submitted" → f ≠ "submission" → f ≠ "assignmentType" →
  f ≠ "textContent" →
  join subs assignment !! f = assignment !! f.
Proof. intros. unfold join. by repeat (rewrite lookup_insert_ne by done). Qed.

Lemma join_id : get_field (join subs assignment) "id" = get_field assignment "id".
Proof. unfold get_field. by rewrite join_other. Qed.

(** [find] finds a match whenever there is one. *)
Lemma find_submission_truthy :
  truthy (find_submission subs assignment) = true
  ↔ ∃ s, s ∈ subs ∧ matches assignment s = true.
Proof.
  unfold find_submission.
  destruct (List.find (matches assignment) subs) as [s|] eqn:E; simpl.
  - apply find_some in E as [Hin Hm]. rewrite <- list_elem_of_In in Hin.
    split; [eauto | done].
  - split; [done|]. intros (s & Hin & Hm).
    rewrite list_elem_of_In in Hin.
    pose proof (find_none _ _ E s Hin). congruence.
Qed.
End Join.

(** ** What the loops gathered *)

Section Gathered.
Context (db : Database) (ft : Faults).

Lemma elem_of_collect coursesMap courseId (snapshot : Collection) a :
  a ∈ collect coursesMap courseId snapshot
  ↔ ∃ child, child ∈ snapshot ∧ of_course courseId child = true
             ∧ a = decorate coursesMap courseId child.
Proof.
  unfold collect. rewrite list_elem_of_fmap.
  setoid_rewrite elem_of_List_filter. split.
  - intros (child & -> & Hin & Hc). eauto.
  - intros (child & Hin & Hc & ->). eauto.
Qed.

Lemma elem_of_gather n courseIds coursesMap a :
  a ∈ gather db ft n courseIds coursesMap
  ↔ ∃ j courseId child,
      courseIds !! j = Some courseId
      ∧ assignments_down ft (n + j) = false
      ∧ child ∈ assignments db
      ∧ of_course courseId child = true
      ∧ a = decorate coursesMap courseId child.
Proof.
  revert n. induction courseIds as [|c rest IH]; intros n; simpl.
  - split; [by intros ?%elem_of_nil | by intros (j & ? & ? & ? & _)].
  - rewrite elem_of_app, IH. split.
    + intros [Hin | (j & cid & child & Hj & Hd & Hin & Hc & Ha)].
      * destruct (assignments_down ft n) eqn:Hn;
          [by apply elem_of_nil in Hin|].
        apply elem_of_collect in Hin as (child & Hin & Hc & Ha).
        exists 0, c, child. rewrite Nat.add_0_r. by repeat split.
      * exists (S j), cid, child. rewrite Nat.add_succ_r. by repeat split.
    + intros (j & cid & child & Hj & Hd & Hin & Hc & Ha).
      destruct j as [|j]; simpl in Hj.
      * left. injection Hj as ->. rewrite Nat.add_0_r in Hd. rewrite Hd.
        apply elem_of_collect. eauto.
      * right. exists j, cid, child. rewrite Nat.add_succ_r in Hd.
        by repeat split.
Qed.

Lemma gather_no_faults n courseIds coursesMap :
  (∀ j, assignments_down ft j = false) →
  gather db ft n courseIds coursesMap
  = courseIds ≫= λ courseId, collect coursesMap courseId (assignments db).
Proof.
  intros Hok. revert n.
  induction courseIds as [|c rest IH]; intros n; [done|].
  cbn [gather]. by rewrite bind_cons, Hok, IH.
Qed.

Lemma titles_lookup_notin courseIds (coursesMap : Obj) key :
  key ∉ to_key <$> courseIds →
  titles db courseIds coursesMap !! key = coursesMap !! key.
Proof.
  revert coursesMap.
  induction courseIds as [|c rest IH]; intros cm Hk; simpl; [done|].
  rewrite fmap_cons, not_elem_of_cons in Hk. destruct Hk as [Hc Hrest].
  rewrite IH by done.
  destruct (courses db !! to_key c); [|done].
  by rewrite lookup_insert_ne.
Qed.

Lemma titles_lookup_in courseIds (coursesMap : Obj) key :
  key ∈ to_key <$> courseIds →
  titles db courseIds coursesMap !! key
  = match courses db !! key with
    | Some c => Some (get_field c "title")
    | None => coursesMap !! key
    end.
Proof.
  revert coursesMap.
  induction courseIds as [|c rest IH]; intros cm Hk; simpl.
  - by apply elem_of_nil in Hk.
  - destruct (decide (key ∈ to_key <$> rest)) as [Hin | Hnotin].
    + rewrite IH by done.
      destruct (courses db !! key) as [r|] eqn:Hr; [done|].
      destruct (courses db !! to_key c) eqn:Hc; [|done].
      rewrite lookup_insert_ne; [done | congruence].
    + rewrite titles_lookup_notin by done.
      rewrite fmap_cons, elem_of_cons in Hk.
      destruct Hk as [-> | ?]; [|done].
      destruct (courses db !! to_key c); [|done].
      by rewrite lookup_insert_eq.
Qed.

(** What a call returns is empty or the list of views. *)
Lemma fetch_result userId l :
  result_of (fetchStudentAssignments db ft userId) = Ok l →
  l = [] ∨ ∃ uid, userId = Some uid ∧ uid ≠ EmptyString
                  ∧ aborted db ft uid = false
                  ∧ l = views db ft uid.
Proof.
  destruct userId as [[|a u]|]; [by intros [= <-]; left | | by intros [= <-]; left].
  destruct (fetch_runs db ft (String a u)) as (evs & Hr & _); [done|].
  rewrite (runs_result _ _ _ Hr). intros [= <-].
  destruct (aborted db ft (String a u)) eqn:Hab; [by left|].
  destruct (snap_exists _); [|by left].
  right. by exists (String a u).
Qed.

Lemma elem_of_views uid v :
  v ∈ views db ft uid
  ↔ ∃ j courseId child,
      course_ids db uid !! j = Some courseId
      ∧ assignments_down ft j = false
      ∧ child ∈ assignments db
      ∧ of_course courseId child = true
      ∧ v = join (student_subs db uid)
              (decorate (titles db (course_ids db uid) ∅) courseId child).
Proof.
  unfold views. rewrite list_elem_of_fmap.
  setoid_rewrite elem_of_gather. split.
  - intros (a & -> & j & cid & child & Hj & Hd & Hin & Hc & ->).
    by exists j, cid, child.
  - intros (j & cid & child & Hj & Hd & Hin & Hc & ->).
    eexists. split; [done|]. by exists j, cid, child.
Qed.

Lemma elem_of_student_subs uid s :
  s ∈ student_subs db uid
  ↔ ∃ k r, (k, r) ∈ submissions db ∧ r !! "user_id" = Some (JStr uid)
           ∧ s = with_key (k, r).
Proof.
  unfold student_subs. rewrite list_elem_of_fmap.
  setoid_rewrite elem_of_query_equal. split.
  - intros ([k r] & -> & ? & ?). by exists k, r.
  - intros (k & r & ? & ? & ->). by exists (k, r).
Qed.

Lemma with_key_assignment_id k (r : Obj) :
  get_field (with_key (k, r)) "assignment_id" = get_field r "assignment_id".
Proof. unfold get_field. by rewrite with_key_other. Qed.
End Gathered.

(** [find] over a mapped filter returns the image of the first child
    that passes both tests. *)
Lemma find_fmap_filter_first {A B} (P : A → bool) (Q : B → bool) (f : A → B)
    (l : list A) (s : B) :
  List.find Q (f <$> List.filter P l) = Some s →
  ∃ before x after,
    l = before ++ x :: after ∧ s = f x ∧ P x = true ∧ Q (f x) = true
    ∧ Forall (λ y, P y && Q (f y) = false) before.
Proof.
  induction l as [|y rest IH]; simpl; [done|].
  destruct (P y) eqn:HP; simpl.
  - destruct (Q (f y)) eqn:HQ.
    + intros [= <-]. exists [], y, rest. by repeat split.
    + intros (before & x & after & -> & -> & ? & ? & Hb)%IH.
      exists (y :: before), x, after. repeat split; try done.
      constructor; [by rewrite HP, HQ | done].
  - intros (before & x & after & -> & -> & ? & ? & Hb)%IH.
    exists (y :: before), x, after. repeat split; try done.
    constructor; [by rewrite HP | done].
Qed.

Lemma courses_fault_true ft n len j :
  j < len → courses_down ft (n + j) = true → courses_fault ft n len = true.
Proof.
  intros Hj Hd. unfold courses_fault. apply existsb_exists.
  exists (n + j). split; [|done]. apply in_seq. lia.
Qed.

Lemma courses_fault_false ft n len :
  (∀ j, courses_down ft j = false) → courses_fault ft n len = false.
Proof.
  intros Hok. unfold courses_fault. revert n.
  induction len as [|len IH]; intros n; simpl; [done|].
  by rewrite Hok, IH.
Qed.

(** Every returned view was built from a stored assignment of a course
    the student is enrolled in. *)
Lemma view_provenance db ft userId l v :
  result_of (fetchStudentAssignments db ft userId) = Ok l → v ∈ l →
  ∃ uid j courseId key r,
    userId = Some uid ∧ uid ≠ EmptyString ∧ aborted db ft uid = false
    ∧ course_ids db uid !! j = Some courseId
    ∧ assignments_down ft j = false
    ∧ (key, r) ∈ assignments db
    ∧ of_course courseId (key, r) = true
    ∧ v = join (student_subs db uid)
            (decorate (titles db (course_ids db uid) ∅) courseId (key, r)).
Proof.
  intros [-> | (uid & -> & Hne & Hab & ->)]%fetch_result Hv.
  - by apply elem_of_nil in Hv.
  - apply elem_of_views in Hv
      as (j & cid & [key r] & Hj & Hd & Hin & Hc & ->).
    by exists uid, j, cid, key, r.
Qed.

(** ** The events of a call *)

Section Traces.
Context (db : Database) (ft : Faults).

Lemma course_loop_trace n courseIds coursesMap :
  courses_fault ft n (length courseIds) = false →
  runs (course_loop db ft n courseIds coursesMap)
       (Ok (titles db courseIds coursesMap)) (course_requests courseIds).
Proof.
  revert n coursesMap.
  induction courseIds as [|c rest IH]; intros n cm Hf; [apply runs_ret|].
  unfold courses_fault in Hf. simpl in Hf.
  apply orb_false_iff in Hf as [Hn Hrest].
  apply (runs_bind_ok _ _ (courses db !! to_key c) _
           [EvGet ("courses/" +:+ to_key c)] (course_requests rest)).
  - unfold get_course. rewrite Hn. apply (runs_emit_then _ _ _ []), runs_ret.
  - by apply IH.
Qed.

Lemma course_loop_trace_throw n courseIds coursesMap j :
  j < length courseIds →
  (∀ i, i < j → courses_down ft (n + i) = false) →
  courses_down ft (n + j) = true →
  runs (course_loop db ft n courseIds coursesMap) (Throw unavailable)
       (course_requests (take (S j) courseIds)).
Proof.
  revert n coursesMap j.
  induction courseIds as [|c rest IH]; intros n cm j Hj Hbefore Hd;
    [simpl in Hj; lia|].
  destruct j as [|j].
  - rewrite Nat.add_0_r in Hd. simpl.
    apply runs_bind_throw. unfold get_course. rewrite Hd.
    apply (runs_emit_then _ _ _ []), runs_throw.
  - apply (runs_bind_ok _ _ (courses db !! to_key c) _
             [EvGet ("courses/" +:+ to_key c)]
             (course_requests (take (S j) rest))).
    + unfold get_course. rewrite <- (Nat.add_0_r n), Hbefore by lia.
      apply (runs_emit_then _ _ _ []), runs_ret.
    + apply IH; [simpl in Hj; lia | |].
      * intros i Hi. rewrite Nat.add_succ_comm. apply Hbefore. lia.
      * by rewrite Nat.add_succ_comm.
Qed.

Lemma assignment_loop_trace n courseIds coursesMap acc :
  runs (assignment_loop db ft n courseIds coursesMap acc)
       (Ok (acc ++ gather db ft n courseIds coursesMap))
       (assignment_requests ft n courseIds).
Proof.
  revert n acc.
  induction courseIds as [|c rest IH]; intros n acc; simpl.
  - rewrite app_nil_r. apply runs_ret.
  - destruct (assignments_down ft n) eqn:Hn.
    + apply (runs_bind_ok _ _ acc _
               [EvGet "assignments"; EvConsoleError (msg_course_failed c)]
               (assignment_requests ft (S n) rest)); [|apply IH].
      apply (runs_try_throw _ _ unavailable _ [EvGet "assignments"]
               [EvConsoleError (msg_course_failed c)]).
      * apply runs_bind_throw. unfold get_assignments. rewrite Hn.
        apply (runs_emit_then _ _ _ []), runs_throw.
      * apply (runs_emit_then _ _ _ []), runs_ret.
    + rewrite app_assoc.
      apply (runs_bind_ok _ _ (acc ++ collect coursesMap c (assignments db)) _
               [EvGet "assignments"] (assignment_requests ft (S n) rest));
        [|apply IH].
      apply runs_try_ok.
      replace (acc ++ collect coursesMap c (assignments db))
        with (if snap_exists (assignments db)
              then acc ++ collect coursesMap c (assignments db) else acc).
      * apply (runs_bind_ok _ _ (assignments db) _ [EvGet "assignments"] []);
          [|apply runs_ret].
        unfold get_assignments. rewrite Hn.
        apply (runs_emit_then _ _ _ []), runs_ret.
      * destruct (assignments db); [|done].
        by rewrite collect_nil, app_nil_r.
Qed.

(** The [try] block from the first loop on, up to the submission query. *)
Lemma fetch_tail_trace uid :
  courses_fault ft 0 (length (course_ids db uid)) = false →
  submissions_down ft = false →
  runs (let* coursesMap := course_loop db ft 0 (course_ids db uid) ∅ in
        let* assignmentsData :=
          assignment_loop db ft 0 (course_ids db uid) coursesMap [] in
        let* submissionsSnapshot := get_submissions db ft uid in
        let subs :=
          if snap_exists submissionsSnapshot
          then with_key <$> submissionsSnapshot else [] in
        ret (join subs <$> assignmentsData))
       (Ok (views db ft uid))
       (course_requests (course_ids db uid)
          ++ assignment_requests ft 0 (course_ids db uid)
          ++ [EvQuery "submissions" "user_id" uid]).
Proof.
  intros Hcf Hs.
  eapply runs_bind_ok; [by apply course_loop_trace|].
  eapply runs_bind_ok; [apply assignment_loop_trace|].
  pose proof (get_submissions_runs db ft uid) as Hsub. rewrite Hs in Hsub.
  apply (runs_bind_ok _ _ _ _ _ [] Hsub). cbv zeta.
  rewrite subs_of_snapshot. apply runs_ret.
Qed.

(** Entering the [try] block with enrollments at hand. *)
Lemma fetch_enters uid r evs :
  uid ≠ EmptyString →
  enrollments_down ft = false →
  snap_exists (enrolled db uid) = true →
  runs (let* coursesMap := course_loop db ft 0 (course_ids db uid) ∅ in
        let* assignmentsData :=
          assignment_loop db ft 0 (course_ids db uid) coursesMap [] in
        let* submissionsSnapshot := get_submissions db ft uid in
        let subs :=
          if snap_exists submissionsSnapshot
          then with_key <$> submissionsSnapshot else [] in
        ret (join subs <$> assignmentsData)) r evs →
  runs (let* enrollmentSnapshot := get_enrollments db ft uid in
        if negb (snap_exists enrollmentSnapshot) then ret []
        else
          let courseIds :=
            (λ child : string * Obj, get_field child.2 "course_id")
              <$> enrollmentSnapshot in
          if (length courseIds =? 0)%nat then ret []
          else
            let* coursesMap := course_loop db ft 0 courseIds ∅ in
            let* assignmentsData :=
              assignment_loop db ft 0 courseIds coursesMap [] in
            let* submissionsSnapshot := get_submissions db ft uid in
            let subs :=
              if snap_exists submissionsSnapshot
              then with_key <$> submissionsSnapshot else [] in
            ret (join subs <$> assignmentsData))
       r (EvQuery "enrollments" "student_id" uid :: evs).
Proof.
  intros Hne He Hex Hr.
  pose proof (get_enrollments_runs db ft uid) as Henr. rewrite He in Henr.
  apply (runs_bind_ok _ _ _ _ [EvQuery "enrollments" "student_id" uid] evs Henr).
  cbv beta zeta. rewrite Hex. cbn [negb]. fold (course_ids db uid).
  by rewrite (course_ids_length db uid Hex).
Qed.
End Traces.

Lemma runs_unique {A} (m : M A) r1 r2 evs1 evs2 :
  runs m r1 evs1 → runs m r2 evs2 → r1 = r2 ∧ evs1 = evs2.
Proof.
  intros H1 H2. specialize (H1 []). specialize (H2 []).
  rewrite H1 in H2. by injection H2.
Qed.

Lemma courses_fault_false_below ft n len :
  (∀ j, j < len → courses_down ft (n + j) = false) →
  courses_fault ft n len = false.
Proof.
  unfold courses_fault. revert n.
  induction len as [|len IH]; intros n Hok; simpl; [done|].
  rewrite <- (Nat.add_0_r n) at 1. rewrite Hok by lia. simpl.
  apply IH. intros j Hj. rewrite Nat.add_succ_comm. apply Hok. lia.
Qed.

Lemma assignment_requests_failed ft n courseIds j courseId :
  courseIds !! j = Some courseId →
  assignments_down ft (n + j) = true →
  EvConsoleError (msg_course_failed courseId)
    ∈ assignment_requests ft n courseIds.
Proof.
  revert n j. induction courseIds as [|c rest IH]; intros n j Hj Hd; [done|].
  simpl. destruct j as [|j]; simpl in Hj.
  - injection Hj as ->. rewrite Nat.add_0_r in Hd. rewrite Hd.
    right. left.
  - right. rewrite elem_of_app. right.
    apply (IH (S n) j); [done|]. by rewrite Nat.add_succ_comm.
Qed.

(** A call that reaches the second loop: its outcome and its events. *)
Lemma fetch_reaches_loop db ft uid :
  uid ≠ EmptyString →
  enrollments_down ft = false →
  snap_exists (enrolled db uid) = true →
  courses_fault ft 0 (length (course_ids db uid)) = false →
  runs (fetchStudentAssignments db ft (Some uid))
       (Ok (if submissions_down ft then [] else views db ft uid))
       (EvQuery "enrollments" "student_id" uid
          :: course_requests (course_ids db uid)
          ++ assignment_requests ft 0 (course_ids db uid)
          ++ EvQuery "submissions" "user_id" uid
          :: (if submissions_down ft
              then [EvConsoleError msg_fetch_failed; EvToastError msg_toast]
              else [])).
Proof.
  intros Hne He Hex Hcf. destruct uid as [|a u]; [done|].
  set (uid := String a u) in *.
  assert (runs
    (let* coursesMap := course_loop db ft 0 (course_ids db uid) ∅ in
     let* assignmentsData :=
       assignment_loop db ft 0 (course_ids db uid) coursesMap [] in
     let* submissionsSnapshot := get_submissions db ft uid in
     let subs :=
       if snap_exists submissionsSnapshot
       then with_key <$> submissionsSnapshot else [] in
     ret (join subs <$> assignmentsData))
    (if submissions_down ft then Throw unavailable else Ok (views db ft uid))
    (course_requests (course_ids db uid)
       ++ assignment_requests ft 0 (course_ids db uid)
       ++ [EvQuery "submissions" "user_id" uid])) as Htail.
  { eapply runs_bind_ok; [by apply course_loop_trace|].
    eapply runs_bind_ok; [apply assignment_loop_trace|].
    pose proof (get_submissions_runs db ft uid) as Hsub.
    destruct (submissions_down ft).
    - by apply runs_bind_throw.
    - apply (runs_bind_ok _ _ _ _ _ [] Hsub). cbv zeta.
      rewrite subs_of_snapshot. apply runs_ret. }
  pose proof (fetch_enters db ft uid _ _ Hne He Hex Htail) as Hbody.
  unfold fetchStudentAssignments. fold uid.
  destruct (submissions_down ft).
  - replace (EvQuery "enrollments" "student_id" uid
               :: course_requests (course_ids db uid)
               ++ assignment_requests ft 0 (course_ids db uid)
               ++ [EvQuery "submissions" "user_id" uid;
                   EvConsoleError msg_fetch_failed; EvToastError msg_toast])
      with ((EvQuery "enrollments" "student_id" uid
               :: course_requests (course_ids db uid)
               ++ assignment_requests ft 0 (course_ids db uid)
               ++ [EvQuery "submissions" "user_id" uid])
            ++ [EvConsoleError msg_fetch_failed; EvToastError msg_toast]).
    + eapply runs_try_throw; [exact Hbody | apply handler_runs].
    + simpl. f_equal. by rewrite <- !app_assoc.
  - by apply runs_try_ok.
Qed.

(** When the outer [catch] runs, its two messages end the events. *)
Lemma fetch_runs_abort db ft uid :
  uid ≠ EmptyString →
  aborted db ft uid = true →
  ∃ before,
    runs (fetchStudentAssignments db ft (Some uid)) (Ok [])
         (before ++ [EvConsoleError msg_fetch_failed; EvToastError msg_toast]).
Proof.
  intros Hne Hab. destruct uid as [|a u]; [done|].
  set (uid := String a u) in *. unfold aborted in Hab.
  unfold fetchStudentAssignments. fold uid.
  pose proof (get_enrollments_runs db ft uid) as He.
  destruct (enrollments_down ft); cbn [orb] in Hab.
  { eexists. eapply runs_try_throw; [|apply handler_runs].
    apply runs_bind_throw, He. }
  destruct (snap_exists (enrolled db uid)) eqn:Hex; [|done].
  cbn [andb] in Hab.
  destruct (fetch_tail_runs db ft uid) as (evs & Hr & _).
  rewrite Hab in Hr.
  eexists. eapply runs_try_throw; [|apply handler_runs].
  eapply runs_bind_ok; [exact He|]. cbv beta zeta.
  rewrite Hex. cbn [negb]. fold (course_ids db uid).
  rewrite (course_ids_length db uid Hex). exact Hr.
Qed.

Section Extensional.
Context (db db' : Database) (ft : Faults).

Lemma titles_ext courseIds coursesMap :
  courses db = courses db' →
  titles db courseIds coursesMap = titles db' courseIds coursesMap.
Proof.
  intros Hc. revert coursesMap.
  induction courseIds as [|c rest IH]; intros cm; simpl; [done|].
  by rewrite Hc, IH.
Qed.

Lemma gather_ext n courseIds coursesMap :
  assignments db = assignments db' →
  gather db ft n courseIds coursesMap = gather db' ft n courseIds coursesMap.
Proof.
  intros Ha. revert n.
  induction courseIds as [|c rest IH]; intros n; simpl; [done|].
  by rewrite Ha, IH.
Qed.
End Extensional.

(** * The claims *)

(** C1. For every view [v] that [fetchStudentAssignments] returns,
    [v.submitted] is [true] if and only if the Submission Store holds a
    record whose [user_id] is the queried student and whose
    [assignment_id] equals [v.id] (in the sense of [===]). *)
Theorem submitted_iff_submission_exists db ft userId l v :
  result_of (fetchStudentAssignments db ft userId) = Ok l → v ∈ l →
  v !! "submitted" = Some (JBool true)
  ↔ ∃ key s, (key, s) ∈ submissions db
             ∧ s !! "user_id" = JStr <$> userId
             ∧ strict_eq (get_field s "assignment_id") (get_field v "id")
               = true.
Proof.
  intros Hl Hv.
  destruct (view_provenance _ _ _ _ _ Hl Hv)
    as (uid & j & cid & key & r & -> & _ & _ & _ & _ & _ & _ & ->).
  rewrite join_submitted, join_id. simpl. split.
  - intros [= (s & Hs & Hm)%find_submission_truthy].
    apply elem_of_student_subs in Hs as (k & r' & Hin & Hu & ->).
    exists k, r'. repeat split; [done..|].
    unfold matches in Hm. by rewrite with_key_assignment_id in Hm.
  - intros (k & r' & Hin & Hu & Hm).
    do 2 f_equal. apply find_submission_truthy.
    exists (with_key (k, r')). split.
    + apply elem_of_student_subs. by exists k, r'.
    + unfold matches. by rewrite with_key_assignment_id.
Qed.

Lemma submitted_iff_submission_exists_witness :
  Demo.view_b1 !! "submitted" = Some (JBool true)
  ↔ ∃ key s, (key, s) ∈ submissions Demo.db1
             ∧ s !! "user_id" = Some (JStr "s")
             ∧ strict_eq (get_field s "assignment_id")
                 (get_field Demo.view_b1 "id") = true.
Proof.
  apply (submitted_iff_submission_exists Demo.db1 no_faults (Some "s")
           [Demo.view_a1; Demo.view_b1]).
  - reflexivity.
  - apply (list_elem_of_lookup_2 _ 1). reflexivity.
Defined.

(** C10. In every returned view the two derived fields agree:
    [submitted] is [true] exactly when [submission] is not [null]; and a
    non-null [submission] is the first record of the Submission Store, in
    iteration order, that belongs to the student and whose
    [assignment_id] equals the view's [id], with its key as [id]. *)
Theorem submitted_agrees_with_submission db ft userId l v :
  result_of (fetchStudentAssignments db ft userId) = Ok l → v ∈ l →
  ∃ (b : bool) (x : JValue),
    v !! "submitted" = Some (JBool b)
    ∧ v !! "submission" = Some x
    ∧ (b = true ↔ x ≠ JNull)
    ∧ (x ≠ JNull →
       ∃ uid before key r after,
         userId = Some uid
         ∧ submissions db = before ++ (key, r) :: after
         ∧ x = JObj (with_key (key, r))
         ∧ r !! "user_id" = Some (JStr uid)
         ∧ strict_eq (get_field r "assignment_id") (get_field v "id") = true
         ∧ Forall
             (λ child : string * Obj,
                field_is "user_id" uid child
                && strict_eq (get_field child.2 "assignment_id")
                     (get_field v "id") = false)
             before).
Proof.
  intros Hl Hv.
  destruct (view_provenance _ _ _ _ _ Hl Hv)
    as (uid & j & cid & key & r & -> & _ & _ & _ & _ & _ & _ & ->).
  eexists _, _. split; [apply join_submitted|].
  split; [apply join_submission|]. rewrite join_id.
  unfold find_submission, student_subs, query_equal.
  destruct (List.find _ _) as [s|] eqn:Hfind; simpl.
  - split; [done|]. intros _.
    apply find_fmap_filter_first in Hfind
      as (before & [k r'] & after & Hsplit & -> & Hu & Hm & Hb).
    exists uid, before, k, r', after. repeat split; try done.
    + by apply field_is_true in Hu.
    + unfold matches in Hm. by rewrite with_key_assignment_id in Hm.
    + eapply Forall_impl; [exact Hb|]. intros [k' r''] Hy. simpl in *.
      unfold matches in Hy. by rewrite with_key_assignment_id in Hy.
  - split; [done|]. by intros [].
Qed.

Lemma submitted_agrees_with_submission_witness :
  ∃ (b : bool) (x : JValue),
    Demo.view_b1 !! "submitted" = Some (JBool b)
    ∧ Demo.view_b1 !! "submission" = Some x
    ∧ (b = true ↔ x ≠ JNull)
    ∧ (x ≠ JNull →
       ∃ uid before key r after,
         Some "s" = Some uid
         ∧ submissions Demo.db1 = before ++ (key, r) :: after
         ∧ x = JObj (with_key (key, r))
         ∧ r !! "user_id" = Some (JStr uid)
         ∧ strict_eq (get_field r "assignment_id")
             (get_field Demo.view_b1 "id") = true
         ∧ Forall
             (λ child : string * Obj,
                field_is "user_id" uid child
                && strict_eq (get_field child.2 "assignment_id")
                     (get_field Demo.view_b1 "id") = false)
             before).
Proof.
  apply (submitted_agrees_with_submission Demo.db1 no_faults (Some "s")
           [Demo.view_a1; Demo.view_b1]).
  - reflexivity.
  - apply (list_elem_of_lookup_2 _ 1). reflexivity.
Defined.

(** The view of a stored record, field by field. *)
Lemma view_id subs coursesMap courseId key (r : Obj) :
  join subs (decorate coursesMap courseId (key, r)) !! "id"
  = Some (default (JStr key) (r !! "id")).
Proof. by rewrite join_other, decorate_id. Qed.

Lemma view_textContent subs coursesMap courseId key (r : Obj) :
  join subs (decorate coursesMap courseId (key, r)) !! "textContent"
  = Some (js_or (get_field r "description") (get_field r "textContent")).
Proof.
  rewrite join_textContent. unfold get_field.
  by rewrite !decorate_other.
Qed.

(** C9. The view of a stored assignment record carries the record's own
    [id] when it has one, and the database key only otherwise; the
    submission join compares [assignment_id] with that same value.  Every
    returned view is the view of a stored record. *)
Theorem view_id_is_record_id db ft userId l :
  result_of (fetchStudentAssignments db ft userId) = Ok l →
  (∀ v, v ∈ l →
     ∃ uid coursesMap courseId key r,
       userId = Some uid ∧ (key, r) ∈ assignments db
       ∧ v = join (student_subs db uid)
               (decorate coursesMap courseId (key, r)))
  ∧ (∀ subs coursesMap courseId key (r : Obj),
       let v := join subs (decorate coursesMap courseId (key, r)) in
       let id := match r !! "id" with Some own => own | None => JStr key end in
       v !! "id" = Some id
       ∧ (v !! "submitted" = Some (JBool true)
          ↔ ∃ s, s ∈ subs
                 ∧ strict_eq (get_field s "assignment_id") id = true)).
Proof.
  intros Hl. split.
  - intros v Hv.
    destruct (view_provenance _ _ _ _ _ Hl Hv)
      as (uid & j & cid & key & r & -> & _ & _ & _ & _ & Hin & _ & ->).
    by exists uid, (titles db (course_ids db uid) ∅), cid, key, r.
  - intros subs cm cid key r v id.
    assert (Hid : v !! "id" = Some id).
    { unfold v, id. rewrite view_id. by destruct (r !! "id"). }
    assert (get_field (decorate cm cid (key, r)) "id" = id) as Hg.
    { unfold get_field, id. rewrite decorate_id. by destruct (r !! "id"). }
    split; [done|]. unfold v. rewrite join_submitted. split.
    + intros [= (s & Hs & Hm)%find_submission_truthy].
      exists s. split; [done|]. unfold matches in Hm. by rewrite Hg in Hm.
    + intros (s & Hs & Hm). do 2 f_equal. apply find_submission_truthy.
      exists s. split; [done|]. unfold matches. by rewrite Hg.
Qed.

Lemma view_id_is_record_id_witness :
  (∀ v, v ∈ [Demo.view_k1] →
     ∃ uid coursesMap courseId key r,
       Some "s" = Some uid ∧ (key, r) ∈ assignments Demo.db2
       ∧ v = join (student_subs Demo.db2 uid)
               (decorate coursesMap courseId (key, r)))
  ∧ (∀ subs coursesMap courseId key (r : Obj),
       let v := join subs (decorate coursesMap courseId (key, r)) in
       let id := match r !! "id" with Some own => own | None => JStr key end in
       v !! "id" = Some id
       ∧ (v !! "submitted" = Some (JBool true)
          ↔ ∃ s, s ∈ subs
                 ∧ strict_eq (get_field s "assignment_id") id = true)).
Proof.
  apply (view_id_is_record_id Demo.db2 no_faults (Some "s") [Demo.view_k1]).
  reflexivity.
Defined.

(** The record [k1] of [db2] is stored under the key [k1] and has the
    [id] [own]: its view has the [id] [own], and the student's submission
    for [k1] does not mark it as submitted. *)
Example view_of_k1 :
  fetchStudentAssignments Demo.db2 no_faults (Some "s") []
  = (Ok [Demo.view_k1],
     [EvQuery "enrollments" "student_id" "s"; EvGet "courses/A";
      EvGet "assignments"; EvQuery "submissions" "user_id" "s"])
  ∧ Demo.view_k1 !! "id" = Some (JStr "own")
  ∧ Demo.view_k1 !! "submitted" = Some (JBool false)
  ∧ Demo.view_k1 !! "submission" = Some JNull.
Proof. repeat split; reflexivity. Qed.

(** C2, as the code has it: the view's [textContent] is the record's
    [description] when that is truthy, and the record's own [textContent]
    (or [undefined]) otherwise. *)
Theorem textContent_prefers_description db ft userId l v :
  result_of (fetchStudentAssignments db ft userId) = Ok l → v ∈ l →
  ∃ uid coursesMap courseId key r,
    userId = Some uid ∧ (key, r) ∈ assignments db
    ∧ v = join (student_subs db uid) (decorate coursesMap courseId (key, r))
    ∧ v !! "textContent"
      = Some (if truthy (get_field r "description")
              then get_field r "description"
              else get_field r "textContent").
Proof.
  intros Hl Hv.
  destruct (view_provenance _ _ _ _ _ Hl Hv)
    as (uid & j & cid & key & r & -> & _ & _ & _ & _ & Hin & _ & ->).
  exists uid, (titles db (course_ids db uid) ∅), cid, key, r.
  repeat split; [done|]. apply view_textContent.
Qed.

Lemma textContent_prefers_description_witness :
  ∃ uid coursesMap courseId key r,
    Some "s" = Some uid ∧ (key, r) ∈ assignments Demo.db2
    ∧ Demo.view_k1
      = join (student_subs Demo.db2 uid) (decorate coursesMap courseId (key, r))
    ∧ Demo.view_k1 !! "textContent"
      = Some (if truthy (get_field r "description")
              then get_field r "description"
              else get_field r "textContent").
Proof.
  apply (textContent_prefers_description Demo.db2 no_faults (Some "s")
           [Demo.view_k1]).
  - reflexivity.
  - apply (list_elem_of_lookup_2 _ 0). reflexivity.
Defined.

(** C2 fails as stated: the record [k1] has the explicit [textContent]
    [T], yet its view has the [description] [D] as [textContent]. *)
Lemma textContent_not_kept :
  Demo.k1 ∈ assignments Demo.db2
  ∧ Demo.k1.2 !! "textContent" = Some (JStr "T")
  ∧ result_of (fetchStudentAssignments Demo.db2 no_faults (Some "s"))
    = Ok [Demo.view_k1]
  ∧ Demo.view_k1 !! "textContent" = Some (JStr "D")
  ∧ Demo.view_k1 !! "textContent" ≠ Demo.k1.2 !! "textContent".
Proof.
  split; [apply list_elem_of_here|].
  split; [reflexivity|]. split; [reflexivity|].
  split; [reflexivity|]. vm_compute. discriminate.
Qed.

(** C3, as the code has it: the course ids are read one per enrollment
    record, repeats included, and each is processed in turn.  With no
    request failing, the returned list is the concatenation, over the
    student's enrollment records in order, of the views of the
    assignments of the record's course. *)
Theorem one_pass_per_enrollment db uid :
  uid ≠ EmptyString →
  ∃ coursesMap,
    result_of (fetchStudentAssignments db no_faults (Some uid))
    = Ok (join (student_subs db uid)
            <$> (enrolled db uid ≫= λ e : string * Obj,
                   collect coursesMap (get_field e.2 "course_id")
                     (assignments db))).
Proof.
  intros Hne. exists (titles db (course_ids db uid) ∅).
  destruct (fetch_runs db no_faults uid Hne) as (evs & Hr & _).
  rewrite (runs_result _ _ _ Hr).
  assert (aborted db no_faults uid = false) as ->.
  { unfold aborted. simpl. rewrite courses_fault_false by done.
    apply andb_false_r. }
  f_equal. destruct (snap_exists (enrolled db uid)) eqn:Hex.
  - unfold views. rewrite gather_no_faults by done.
    unfold course_ids. by rewrite list_fmap_bind.
  - by destruct (enrolled db uid).
Qed.

Lemma one_pass_per_enrollment_witness :
  ∃ coursesMap,
    result_of (fetchStudentAssignments Demo.db3 no_faults (Some "s"))
    = Ok (join (student_subs Demo.db3 "s")
            <$> (enrolled Demo.db3 "s" ≫= λ e : string * Obj,
                   collect coursesMap (get_field e.2 "course_id")
                     (assignments Demo.db3))).
Proof. apply (one_pass_per_enrollment Demo.db3 "s"). discriminate. Defined.

(** C3 fails as stated: student [s] of [db3] has two enrollment records
    for course [A]; the course id is collected twice and the one
    assignment of [A] is returned twice. *)
Lemma duplicate_enrollment_repeats :
  course_ids Demo.db3 "s" = [JStr "A"; JStr "A"]
  ∧ assignments Demo.db3 = [Demo.a1]
  ∧ ∃ v, result_of (fetchStudentAssignments Demo.db3 no_faults (Some "s"))
         = Ok [v; v]
         ∧ v !! "id" = Some (JStr "a1").
Proof.
  split; [reflexivity|]. split; [reflexivity|].
  exists (join [] (decorate (Demo.rec [("A", JStr "Algebra")]) (JStr "A") Demo.a1)).
  split; reflexivity.
Qed.

(** C4, as the code has it: a course lookup that throws is not caught in
    the first loop; the outer [catch] returns the empty list and emits the
    notification, whatever the other courses hold.  A lookup that finds no
    course, or no truthy title, leaves the name [Unknown Course] on the
    assignments of that course, and the other courses keep their titles;
    this second part is stated for enrolled course ids that are plain
    keys. *)
Theorem course_lookup_throw_or_miss db uid :
  uid ≠ EmptyString →
  (∀ ft j,
     enrollments_down ft = false → j < length (enrolled db uid) →
     courses_down ft j = true →
     result_of (fetchStudentAssignments db ft (Some uid)) = Ok []
     ∧ EvToastError msg_toast
         ∈ events_of (fetchStudentAssignments db ft (Some uid)))
  ∧ (∀ ft l v,
       Forall (λ courseId, plain_id courseId = true) (course_ids db uid) →
       result_of (fetchStudentAssignments db ft (Some uid)) = Ok l →
       v ∈ l →
       ∃ coursesMap courseId key r,
         (key, r) ∈ assignments db
         ∧ get_field r "course_id" = courseId
         ∧ v = join (student_subs db uid)
                 (decorate coursesMap courseId (key, r))
         ∧ v !! "course_name"
           = Some match courses db !! to_key courseId with
                  | Some c =>
                      js_or (get_field c "title") (JStr unknown_course)
                  | None => JStr unknown_course
                  end).
Proof.
  intros Hne. split.
  - intros ft j He Hj Hd.
    destruct (fetch_runs db ft uid Hne) as (evs & Hr & Hev).
    rewrite (runs_result _ _ _ Hr), (runs_events _ _ _ Hr).
    assert (aborted db ft uid = true) as Hab.
    { unfold aborted. rewrite He. simpl.
      rewrite (courses_fault_true ft 0 _ j);
        [| by unfold course_ids; rewrite length_fmap | done].
      simpl. rewrite andb_true_r.
      destruct (enrolled db uid); [simpl in Hj; lia | done]. }
    by rewrite Hab in Hev |- *.
  - intros ft l v _ Hl Hv.
    destruct (view_provenance _ _ _ _ _ Hl Hv)
      as (? & j & cid & key & r & [= <-] & _ & _ & Hj & _ & Hin & Hc & ->).
    exists (titles db (course_ids db uid) ∅), cid, key, r.
    repeat split; [done | by apply strict_eq_eq in Hc |].
    rewrite join_other, decorate_course_name by done. f_equal.
    unfold get_field at 1. rewrite titles_lookup_in.
    + by destruct (courses db !! to_key cid).
    + apply list_elem_of_fmap_2. by eapply list_elem_of_lookup_2.
Qed.

(** Over [db4], where course [A] has no record: when the lookup of [A]
    throws nothing is returned, and when no lookup throws the view of
    [a1] is named after the missing course. *)
Lemma course_lookup_throw_or_miss_witness :
  (result_of (fetchStudentAssignments Demo.db4 Demo.first_course_down
                (Some "s")) = Ok []
   ∧ EvToastError msg_toast
       ∈ events_of (fetchStudentAssignments Demo.db4 Demo.first_course_down
                      (Some "s")))
  ∧ (∃ coursesMap courseId key r,
       (key, r) ∈ assignments Demo.db4
       ∧ get_field r "course_id" = courseId
       ∧ Samples.view_a4
         = join (student_subs Demo.db4 "s")
             (decorate coursesMap courseId (key, r))
       ∧ Samples.view_a4 !! "course_name"
         = Some match courses Demo.db4 !! to_key courseId with
                | Some c => js_or (get_field c "title") (JStr unknown_course)
                | None => JStr unknown_course
                end).
Proof.
  assert ("s" ≠ EmptyString) as Hne by discriminate.
  destruct (course_lookup_throw_or_miss Demo.db4 "s" Hne) as [Hthrow Hmiss].
  split.
  - apply (Hthrow Demo.first_course_down 0); [reflexivity | | reflexivity].
    vm_compute. lia.
  - apply (Hmiss no_faults [Samples.view_a4; Samples.view_b4]).
    + vm_compute. repeat constructor.
    + reflexivity.
    + apply (list_elem_of_lookup_2 _ 0). reflexivity.
Defined.

(** C4 fails as stated: student [s] of [db1] is enrolled in [A] and [B];
    when the lookup of [A] throws and that of [B] would not, the call
    returns no assignment at all, not even [b1] of course [B]. *)
Lemma course_throw_loses_other_course :
  course_ids Demo.db1 "s" = [JStr "A"; JStr "B"]
  ∧ courses_down Demo.first_course_down 0 = true
  ∧ courses_down Demo.first_course_down 1 = false
  ∧ assignments Demo.db1 = [Demo.a1; Demo.b1]
  ∧ fetchStudentAssignments Demo.db1 Demo.first_course_down (Some "s") []
    = (Ok [],
       [EvQuery "enrollments" "student_id" "s"; EvGet "courses/A";
        EvConsoleError msg_fetch_failed; EvToastError msg_toast]).
Proof. repeat split; reflexivity. Qed.

(** The scenario with a miss instead of a throw: course [A] has no
    record in [db4]; its assignment is named [Unknown Course] and the
    assignment of [B] keeps the title of [B]. *)
Example missing_course_unknown :
  ∃ va vb,
    result_of (fetchStudentAssignments Demo.db4 no_faults (Some "s"))
    = Ok [va; vb]
    ∧ va !! "id" = Some (JStr "a1")
    ∧ va !! "course_name" = Some (JStr "Unknown Course")
    ∧ vb !! "id" = Some (JStr "b1")
    ∧ vb !! "course_name" = Some (JStr "Biology").
Proof.
  exists (join (student_subs Demo.db4 "s")
            (decorate (Demo.rec [("B", JStr "Biology")]) (JStr "A") Demo.a1)),
         (join (student_subs Demo.db4 "s")
            (decorate (Demo.rec [("B", JStr "Biology")]) (JStr "B") Demo.b1)).
  repeat split; reflexivity.
Qed.

(** C5, as the code has it: the call never rejects; it ends with a list
    from every log and under every schedule of failures.  When the outer
    [catch] runs (the enrollment query, a course lookup or the submission
    query threw) the error is logged, the notification is emitted and the
    list is empty; a fetch of the assignments that throws is caught in
    the loop and logged to the console with the printed course id (the
    id itself when it is a string), and no notification is emitted for
    it. *)
Theorem never_rejects db ft userId w :
  ∃ l evs,
    fetchStudentAssignments db ft userId w = (Ok l, w ++ evs)
    ∧ ∀ uid, userId = Some uid → uid ≠ EmptyString →
        (aborted db ft uid = true →
           l = []
           ∧ EvConsoleError msg_fetch_failed ∈ evs
           ∧ EvToastError msg_toast ∈ evs)
        ∧ (aborted db ft uid = false → quiet evs)
        ∧ (∀ j courseId,
             enrollments_down ft = false →
             (∀ n, n < length (course_ids db uid) →
                   courses_down ft n = false) →
             course_ids db uid !! j = Some courseId →
             assignments_down ft j = true →
             ∃ shown,
               EvConsoleError
                 ("Error fetching assignments for course " +:+ shown +:+ ":")
                 ∈ evs
               ∧ ∀ s, courseId = JStr s → shown = s).
Proof.
  destruct userId as [[|a u]|].
  - exists [], []. split; [by rewrite app_nil_r|]. by intros uid [= <-].
  - destruct (fetch_runs db ft (String a u)) as (evs & Hr & Hev); [done|].
    eexists _, evs. split; [apply Hr|]. intros uid [= <-] _.
    split; [|split].
    + intros Hab. rewrite Hab in Hev |- *. split; [done|]. split; [|done].
      destruct (fetch_runs_abort db ft (String a u)) as (before & Hr');
        [done..|].
      rewrite Hab in Hr. destruct (runs_unique _ _ _ _ _ Hr Hr') as [_ ->].
      rewrite elem_of_app. right. left.
    + intros Hab. by rewrite Hab in Hev.
    + intros j cid He Hc Hj Hd.
      assert (snap_exists (enrolled db (String a u)) = true) as Hex.
      { unfold course_ids in Hj. by destruct (enrolled db (String a u)). }
      pose proof (fetch_reaches_loop db ft (String a u)) as Hr'.
      specialize (Hr' ltac:(done) He Hex
                    (courses_fault_false_below ft 0 _ Hc)).
      destruct (runs_unique _ _ _ _ _ Hr Hr') as [_ ->].
      exists (to_key cid). split; [|by intros s ->].
      right. rewrite !elem_of_app. right. left.
      by apply (assignment_requests_failed ft 0 _ j).
  - exists [], []. split; [by rewrite app_nil_r | done].
Qed.

(** C5 fails as stated: over [db1], with every fetch of the assignments
    throwing, the two failures are logged to the console and the call
    returns the empty list without any notification. *)
Lemma assignment_failure_not_notified :
  assignments_down Demo.assignments_always_down 0 = true
  ∧ fetchStudentAssignments Demo.db1 Demo.assignments_always_down (Some "s") []
    = (Ok [],
       [EvQuery "enrollments" "student_id" "s";
        EvGet "courses/A"; EvGet "courses/B";
        EvGet "assignments";
        EvConsoleError "Error fetching assignments for course A:";
        EvGet "assignments";
        EvConsoleError "Error fetching assignments for course B:";
        EvQuery "submissions" "user_id" "s"])
  ∧ quiet (events_of (fetchStudentAssignments Demo.db1
                        Demo.assignments_always_down (Some "s"))).
Proof.
  split; [reflexivity|]. split; [reflexivity|].
  unfold quiet. vm_compute. repeat constructor.
Qed.

(** C6. When the enrollment query, the course lookups and the submission
    query succeed, the call returns a list that holds the view of every
    assignment of every enrolled course whose fetch did not throw,
    whichever other fetches of the loop threw. *)
Theorem other_courses_survive db ft uid :
  uid ≠ EmptyString →
  enrollments_down ft = false →
  (∀ n, courses_down ft n = false) →
  submissions_down ft = false →
  ∃ l,
    result_of (fetchStudentAssignments db ft (Some uid)) = Ok l
    ∧ quiet (events_of (fetchStudentAssignments db ft (Some uid)))
    ∧ ∀ j courseId child,
        course_ids db uid !! j = Some courseId →
        assignments_down ft j = false →
        child ∈ assignments db →
        of_course courseId child = true →
        ∃ coursesMap,
          join (student_subs db uid) (decorate coursesMap courseId child) ∈ l.
Proof.
  intros Hne He Hc Hs.
  destruct (fetch_runs db ft uid Hne) as (evs & Hr & Hev).
  rewrite (runs_result _ _ _ Hr), (runs_events _ _ _ Hr).
  assert (aborted db ft uid = false) as Hab.
  { unfold aborted. rewrite He, Hs, courses_fault_false by done.
    apply andb_false_r. }
  rewrite Hab in Hev |- *. eexists. split; [done|]. split; [done|].
  intros j cid child Hj Hd Hin Hof.
  exists (titles db (course_ids db uid) ∅).
  assert (snap_exists (enrolled db uid) = true) as ->.
  { unfold course_ids in Hj. destruct (enrolled db uid); [done | done]. }
  apply elem_of_views. by exists j, cid, child.
Qed.

Lemma other_courses_survive_witness :
  ∃ l,
    result_of (fetchStudentAssignments Demo.db1 Demo.first_assignments_down
                 (Some "s")) = Ok l
    ∧ quiet (events_of (fetchStudentAssignments Demo.db1
                          Demo.first_assignments_down (Some "s")))
    ∧ ∀ j courseId child,
        course_ids Demo.db1 "s" !! j = Some courseId →
        assignments_down Demo.first_assignments_down j = false →
        child ∈ assignments Demo.db1 →
        of_course courseId child = true →
        ∃ coursesMap,
          join (student_subs Demo.db1 "s") (decorate coursesMap courseId child)
            ∈ l.
Proof.
  apply (other_courses_survive Demo.db1 Demo.first_assignments_down "s").
  - discriminate.
  - reflexivity.
  - intros n. reflexivity.
  - reflexivity.
Defined.

(** The fetch for course [A] throws, the one for [B] does not: the view
    of [b1] is returned, and the failure is only logged. *)
Example first_fetch_fails :
  fetchStudentAssignments Demo.db1 Demo.first_assignments_down (Some "s") []
  = (Ok [Demo.view_b1],
     [EvQuery "enrollments" "student_id" "s";
      EvGet "courses/A"; EvGet "courses/B";
      EvGet "assignments";
      EvConsoleError "Error fetching assignments for course A:";
      EvGet "assignments";
      EvQuery "submissions" "user_id" "s"]).
Proof. reflexivity. Qed.

(** C7. For an [undefined] or empty [userId] the call returns the empty
    list at once: the log is unchanged, no store was contacted. *)
Theorem empty_user_returns_nothing db ft w :
  fetchStudentAssignments db ft None w = (Ok [], w)
  ∧ fetchStudentAssignments db ft (Some EmptyString) w = (Ok [], w).
Proof. by split. Qed.

(** C8. The list a call resolves to is determined by what the four
    reads return: two store states in which the student's enrollment
    query and submission query return the same records, and whose course
    and assignment collections are the same, give equal lists under the
    same schedule, whatever else the stores hold and from whatever logs.
    In particular a second call, made after the first against the same
    store state, returns the same list. *)
Theorem fetch_deterministic db db' ft userId w w' :
  (∀ uid, userId = Some uid →
     query_equal "student_id" uid (enrollments db)
     = query_equal "student_id" uid (enrollments db')
     ∧ query_equal "user_id" uid (submissions db)
       = query_equal "user_id" uid (submissions db')) →
  courses db = courses db' →
  assignments db = assignments db' →
  (fetchStudentAssignments db ft userId w).1
  = (fetchStudentAssignments db' ft userId w').1.
Proof.
  intros Hq Hc Ha. destruct userId as [[|a u]|]; [done| |done].
  destruct (Hq (String a u) eq_refl) as [He Hs].
  destruct (fetch_runs db ft (String a u)) as (evs & Hr & _); [done|].
  destruct (fetch_runs db' ft (String a u)) as (evs' & Hr' & _); [done|].
  rewrite Hr, Hr'. simpl. f_equal.
  assert (enrolled db (String a u) = enrolled db' (String a u)) as Henr
    by exact He.
  assert (course_ids db (String a u) = course_ids db' (String a u)) as Hids
    by (unfold course_ids; by rewrite Henr).
  assert (aborted db ft (String a u) = aborted db' ft (String a u)) as ->
    by (unfold aborted; by rewrite Henr, Hids).
  rewrite Henr. unfold views, student_subs.
  by rewrite Hs, Hids, (titles_ext db db' _ _ Hc), (gather_ext db db' ft _ _ _ Ha).
Qed.

(** Another student's enrollment and submission change nothing for [s],
    whatever the log the second call starts from. *)
Lemma fetch_deterministic_witness :
  (fetchStudentAssignments Demo.db1 Demo.first_assignments_down (Some "s")
     []).1
  = (fetchStudentAssignments Samples.db1_more Demo.first_assignments_down
       (Some "s") [EvToastError msg_toast]).1.
Proof.
  apply (fetch_deterministic Demo.db1 Samples.db1_more
           Demo.first_assignments_down (Some "s") [] [EvToastError msg_toast]).
  - intros uid [= <-]. split; reflexivity.
  - reflexivity.
  - reflexivity.
Defined.

(** The second call against the same store state. *)
Example second_call_same_list db ft userId w :
  (fetchStudentAssignments db ft userId
     (fetchStudentAssignments db ft userId w).2).1
  = (fetchStudentAssignments db ft userId w).1.
Proof.
  destruct userId as [[|a u]|]; [done| |done].
  destruct (fetch_runs db ft (String a u)) as (evs & Hr & _); [done|].
  by rewrite !Hr.
Qed.

(** * Further properties of [fetchStudentAssignments] *)


(** X1. A student without any enrollment record gets the empty list
    after the enrollment query alone: no course, assignment or
    submission is requested and nothing is notified. *)
Theorem no_enrollment_single_request db ft uid w :
  uid ≠ EmptyString →
  enrollments_down ft = false →
  (∀ child, child ∈ enrollments db →
            child.2 !! "student_id" ≠ Some (JStr uid)) →
  fetchStudentAssignments db ft (Some uid) w
  = (Ok [], w ++ [EvQuery "enrollments" "student_id" uid]).
Proof.
  intros Hne He Hnone. destruct uid as [|a u]; [done|].
  assert (enrolled db (String a u) = []) as Hnil.
  { destruct (enrolled db (String a u)) as [|c rest] eqn:E; [done|].
    assert (c ∈ enrolled db (String a u)) as Hc by (rewrite E; left).
    apply elem_of_query_equal in Hc as [Hin Hs]. by destruct (Hnone c Hin). }
  pose proof (get_enrollments_runs db ft (String a u)) as Hr.
  rewrite He in Hr. fold (enrolled db (String a u)) in Hr. rewrite Hnil in Hr.
  unfold fetchStudentAssignments, try_catch, bind. by rewrite Hr.
Qed.

Lemma no_enrollment_single_request_witness :
  fetchStudentAssignments Demo.db1 no_faults (Some "nobody") []
  = (Ok [], [] ++ [EvQuery "enrollments" "student_id" "nobody"]).
Proof.
  apply (no_enrollment_single_request Demo.db1 no_faults "nobody" []).
  - discriminate.
  - reflexivity.
  - intros child Hin. apply list_elem_of_In in Hin.
    unfold Demo.db1 in Hin. cbn [enrollments In] in Hin.
    destruct Hin as [<- | [<- | [<- | []]]]; vm_compute; discriminate.
Defined.

(** X2. When the enrollment query throws, the call stops there: the
    error is logged, one notification is emitted, the empty list is
    returned, and no other store is contacted. *)
Theorem enrollment_failure_stops_requests db ft uid w :
  uid ≠ EmptyString →
  enrollments_down ft = true →
  fetchStudentAssignments db ft (Some uid) w
  = (Ok [],
     w ++ [EvQuery "enrollments" "student_id" uid;
           EvConsoleError msg_fetch_failed; EvToastError msg_toast]).
Proof.
  intros Hne He. destruct uid as [|a u]; [done|].
  pose proof (get_enrollments_runs db ft (String a u)) as Hr.
  rewrite He in Hr.
  apply (runs_try_throw _ _ unavailable _
           [EvQuery "enrollments" "student_id" (String a u)]
           [EvConsoleError msg_fetch_failed; EvToastError msg_toast]).
  - by apply runs_bind_throw.
  - apply handler_runs.
Qed.

Lemma enrollment_failure_stops_requests_witness :
  fetchStudentAssignments Demo.db1
    {| enrollments_down := true; courses_down := λ _, false;
       assignments_down := λ _, false; submissions_down := false |}
    (Some "s") []
  = (Ok [],
     [] ++ [EvQuery "enrollments" "student_id" "s";
            EvConsoleError msg_fetch_failed; EvToastError msg_toast]).
Proof.
  apply (enrollment_failure_stops_requests Demo.db1 _ "s" []);
    [discriminate | reflexivity].
Defined.

(** X3. When the lookup of the j-th enrolled course is the first to
    throw, the call has looked up the courses up to that one and nothing
    else: no assignment is fetched, the submissions are not queried, the
    error is logged and notified once, and the empty list is returned. *)
Theorem course_failure_stops_requests db ft uid j w :
  uid ≠ EmptyString →
  Forall (λ courseId, plain_id courseId = true) (course_ids db uid) →
  enrollments_down ft = false →
  j < length (enrolled db uid) →
  (∀ i, i < j → courses_down ft i = false) →
  courses_down ft j = true →
  fetchStudentAssignments db ft (Some uid) w
  = (Ok [],
     w ++ EvQuery "enrollments" "student_id" uid
       :: course_requests (take (S j) (course_ids db uid))
       ++ [EvConsoleError msg_fetch_failed; EvToastError msg_toast]).
Proof.
  intros Hne _ He Hj Hbefore Hd.
  assert (snap_exists (enrolled db uid) = true) as Hex
    by (destruct (enrolled db uid); [simpl in Hj; lia | done]).
  assert (j < length (course_ids db uid)) as Hj'
    by (unfold course_ids; by rewrite length_fmap).
  destruct uid as [|a u]; [done|].
  apply (runs_try_throw _ _ unavailable _
           (EvQuery "enrollments" "student_id" (String a u)
              :: course_requests (take (S j) (course_ids db (String a u))))
           [EvConsoleError msg_fetch_failed; EvToastError msg_toast]);
    [|apply handler_runs].
  apply fetch_enters; [done..|].
  apply runs_bind_throw. by apply course_loop_trace_throw.
Qed.

Lemma course_failure_stops_requests_witness :
  fetchStudentAssignments Demo.db1 Demo.first_course_down (Some "s") []
  = (Ok [],
     [] ++ EvQuery "enrollments" "student_id" "s"
        :: course_requests (take 1 (course_ids Demo.db1 "s"))
        ++ [EvConsoleError msg_fetch_failed; EvToastError msg_toast]).
Proof.
  apply (course_failure_stops_requests Demo.db1 Demo.first_course_down "s" 0 []).
  - discriminate.
  - vm_compute. repeat constructor.
  - reflexivity.
  - vm_compute. lia.
  - intros i Hi. lia.
  - reflexivity.
Defined.

(** The outcome and the events of a call that is not interrupted. *)
Lemma successful_call_trace_aux db ft uid :
  uid ≠ EmptyString →
  enrollments_down ft = false →
  enrolled db uid ≠ [] →
  (∀ n, courses_down ft n = false) →
  submissions_down ft = false →
  result_of (fetchStudentAssignments db ft (Some uid)) = Ok (views db ft uid)
  ∧ events_of (fetchStudentAssignments db ft (Some uid))
    = EvQuery "enrollments" "student_id" uid
        :: course_requests (course_ids db uid)
        ++ assignment_requests ft 0 (course_ids db uid)
        ++ [EvQuery "submissions" "user_id" uid].
Proof.
  intros Hne He Hsome Hc Hs.
  assert (snap_exists (enrolled db uid) = true) as Hex
    by (by destruct (enrolled db uid)).
  assert (runs (fetchStudentAssignments db ft (Some uid))
            (Ok (views db ft uid))
            (EvQuery "enrollments" "student_id" uid
               :: course_requests (course_ids db uid)
               ++ assignment_requests ft 0 (course_ids db uid)
               ++ [EvQuery "submissions" "user_id" uid])) as Hr.
  { destruct uid as [|a u]; [done|].
    apply runs_try_ok. apply fetch_enters; [done..|].
    apply fetch_tail_trace; [|done]. by apply courses_fault_false. }
  split; [exact (runs_result _ _ _ Hr) | exact (runs_events _ _ _ Hr)].
Qed.

(** X4. When the enrollment query, the course lookups and the
    submission query succeed, the call issues, in this order: the
    enrollment query, one course lookup per enrollment record, one fetch
    of the whole assignment collection per enrollment record (each
    followed by a console error when it throws), and one single
    submission query. *)
Theorem successful_call_trace db ft uid w :
  uid ≠ EmptyString →
  Forall (λ courseId, plain_id courseId = true) (course_ids db uid) →
  enrollments_down ft = false →
  enrolled db uid ≠ [] →
  (∀ n, courses_down ft n = false) →
  submissions_down ft = false →
  ∃ l,
    fetchStudentAssignments db ft (Some uid) w
    = (Ok l,
       w ++ EvQuery "enrollments" "student_id" uid
         :: course_requests (course_ids db uid)
         ++ assignment_requests ft 0 (course_ids db uid)
         ++ [EvQuery "submissions" "user_id" uid]).
Proof.
  intros Hne _ He Hsome Hc Hs.
  assert (snap_exists (enrolled db uid) = true) as Hex
    by (by destruct (enrolled db uid)).
  exists (views db ft uid). destruct uid as [|a u]; [done|].
  apply runs_try_ok. apply fetch_enters; [done..|].
  apply fetch_tail_trace; [|done]. by apply courses_fault_false.
Qed.

Lemma successful_call_trace_witness :
  ∃ l,
    fetchStudentAssignments Demo.db1 Demo.first_assignments_down (Some "s") []
    = (Ok l,
       [] ++ EvQuery "enrollments" "student_id" "s"
          :: course_requests (course_ids Demo.db1 "s")
          ++ assignment_requests Demo.first_assignments_down 0
               (course_ids Demo.db1 "s")
          ++ [EvQuery "submissions" "user_id" "s"]).
Proof.
  apply (successful_call_trace Demo.db1 Demo.first_assignments_down "s" []).
  - discriminate.
  - vm_compute. repeat constructor.
  - reflexivity.
  - vm_compute. discriminate.
  - intros n. reflexivity.
  - reflexivity.
Defined.

(** X5. Only assignments of enrolled courses are returned: the
    [course_id] of every returned view is the [course_id] of one of the
    queried student's enrollment records. *)
Theorem only_enrolled_courses db ft userId l v :
  result_of (fetchStudentAssignments db ft userId) = Ok l → v ∈ l →
  ∃ uid ke e,
    userId = Some uid
    ∧ (ke, e) ∈ enrollments db
    ∧ e !! "student_id" = Some (JStr uid)
    ∧ get_field v "course_id" = get_field e "course_id".
Proof.
  intros Hl Hv.
  destruct (view_provenance _ _ _ _ _ Hl Hv)
    as (uid & j & cid & key & r & -> & _ & _ & Hj & _ & _ & Hc & ->).
  unfold course_ids in Hj. rewrite list_lookup_fmap in Hj.
  destruct (enrolled db uid !! j) as [[ke e]|] eqn:Hlook; [|done].
  injection Hj as <-.
  apply list_elem_of_lookup_2, elem_of_query_equal in Hlook as [Hin Hs].
  exists uid, ke, e. repeat split; [done..|].
  apply strict_eq_eq in Hc. simpl in Hc. rewrite <- Hc.
  unfold get_field. by rewrite join_other, decorate_other.
Qed.

Lemma only_enrolled_courses_witness :
  ∃ uid ke e,
    Some "s" = Some uid
    ∧ (ke, e) ∈ enrollments Demo.db1
    ∧ e !! "student_id" = Some (JStr uid)
    ∧ get_field Demo.view_b1 "course_id" = get_field e "course_id".
Proof.
  apply (only_enrolled_courses Demo.db1 no_faults (Some "s")
           [Demo.view_a1; Demo.view_b1]).
  - reflexivity.
  - apply (list_elem_of_lookup_2 _ 1). reflexivity.
Defined.

(** X6. A view passes the stored record through: apart from the six
    fields the routine computes ([id], [course_name], [submitted],
    [submission], [assignmentType], [textContent]) every field of a
    returned view, present or absent, is that of the stored assignment
    record it was built from. *)
Theorem view_keeps_record_fields db ft userId l v :
  result_of (fetchStudentAssignments db ft userId) = Ok l → v ∈ l →
  ∃ uid coursesMap courseId key r,
    userId = Some uid
    ∧ (key, r) ∈ assignments db
    ∧ v = join (student_subs db uid) (decorate coursesMap courseId (key, r))
    ∧ ∀ f, f ∉ derived_fields → v !! f = r !! f.
Proof.
  intros Hl Hv.
  destruct (view_provenance _ _ _ _ _ Hl Hv)
    as (uid & j & cid & key & r & -> & _ & _ & _ & _ & Hin & _ & ->).
  exists uid, (titles db (course_ids db uid) ∅), cid, key, r.
  repeat split; [done|]. intros f Hf. unfold derived_fields in Hf.
  rewrite !not_elem_of_cons in Hf.
  destruct Hf as (? & ? & ? & ? & ? & ? & _).
  by rewrite join_other, decorate_other.
Qed.

Lemma view_keeps_record_fields_witness :
  ∃ uid coursesMap courseId key r,
    Some "s" = Some uid
    ∧ (key, r) ∈ assignments Demo.db1
    ∧ Demo.view_a1
      = join (student_subs Demo.db1 uid) (decorate coursesMap courseId (key, r))
    ∧ ∀ f, f ∉ derived_fields → Demo.view_a1 !! f = r !! f.
Proof.
  apply (view_keeps_record_fields Demo.db1 no_faults (Some "s")
           [Demo.view_a1; Demo.view_b1]).
  - reflexivity.
  - apply (list_elem_of_lookup_2 _ 0). reflexivity.
Defined.

(** X7. The [assignmentType] of a returned view is the stored record's
    own [assignmentType] when that is truthy and the string [text]
    otherwise (absent, empty, [0] or [false]). *)
Theorem assignmentType_defaults_to_text db ft userId l v :
  result_of (fetchStudentAssignments db ft userId) = Ok l → v ∈ l →
  ∃ uid coursesMap courseId key r,
    userId = Some uid
    ∧ (key, r) ∈ assignments db
    ∧ v = join (student_subs db uid) (decorate coursesMap courseId (key, r))
    ∧ v !! "assignmentType"
      = Some (if truthy (get_field r "assignmentType")
              then get_field r "assignmentType" else JStr "text").
Proof.
  intros Hl Hv.
  destruct (view_provenance _ _ _ _ _ Hl Hv)
    as (uid & j & cid & key & r & -> & _ & _ & _ & _ & Hin & _ & ->).
  exists uid, (titles db (course_ids db uid) ∅), cid, key, r.
  repeat split; [done|]. rewrite join_assignmentType. unfold get_field.
  by rewrite decorate_other.
Qed.

Lemma assignmentType_defaults_to_text_witness :
  ∃ uid coursesMap courseId key r,
    Some "s" = Some uid
    ∧ (key, r) ∈ assignments Demo.db1
    ∧ Demo.view_a1
      = join (student_subs Demo.db1 uid) (decorate coursesMap courseId (key, r))
    ∧ Demo.view_a1 !! "assignmentType"
      = Some (if truthy (get_field r "assignmentType")
              then get_field r "assignmentType" else JStr "text").
Proof.
  apply (assignmentType_defaults_to_text Demo.db1 no_faults (Some "s")
           [Demo.view_a1; Demo.view_b1]).
  - reflexivity.
  - apply (list_elem_of_lookup_2 _ 0). reflexivity.
Defined.

(** X8. A missing [course_id] matches a missing [course_id]: when one
    of the student's enrollment records has no [course_id], the course
    [courses/undefined] is looked up and every assignment record without
    a [course_id] is returned to the student. *)
Theorem missing_course_id_matches db ft uid ke e key r :
  uid ≠ EmptyString →
  enrollments_down ft = false →
  (∀ n, courses_down ft n = false) →
  (∀ n, assignments_down ft n = false) →
  submissions_down ft = false →
  (ke, e) ∈ enrollments db →
  e !! "student_id" = Some (JStr uid) →
  e !! "course_id" = None →
  (key, r) ∈ assignments db →
  r !! "course_id" = None →
  ∃ l coursesMap,
    result_of (fetchStudentAssignments db ft (Some uid)) = Ok l
    ∧ join (student_subs db uid) (decorate coursesMap JUndef (key, r)) ∈ l
    ∧ EvGet "courses/undefined"
        ∈ events_of (fetchStudentAssignments db ft (Some uid)).
Proof.
  intros Hne He Hc Ha Hs Hin Hsid Hcid Hrin Hrcid.
  assert ((ke, e) ∈ enrolled db uid) as Henr
    by (by apply elem_of_query_equal).
  apply list_elem_of_lookup in Henr as [j Hj].
  assert (course_ids db uid !! j = Some JUndef) as Hids.
  { unfold course_ids. rewrite list_lookup_fmap, Hj. simpl.
    unfold get_field. by rewrite Hcid. }
  assert (enrolled db uid ≠ []) as Hsome by (by intros Hnil; rewrite Hnil in Hj).
  destruct (successful_call_trace_aux db ft uid) as [Hres Hev]; [done..|].
  exists (views db ft uid), (titles db (course_ids db uid) ∅).
  split; [done|]. split.
  - apply elem_of_views. exists j, JUndef, (key, r).
    repeat split; [done.. |]. unfold of_course, get_field. simpl.
    by rewrite Hrcid.
  - rewrite Hev. right. rewrite elem_of_app. left.
    change (EvGet "courses/undefined")
      with ((λ courseId, EvGet ("courses/" +:+ to_key courseId)) JUndef).
    apply list_elem_of_fmap_2. by eapply list_elem_of_lookup_2.
Qed.


Lemma missing_course_id_matches_witness :
  ∃ l coursesMap,
    result_of (fetchStudentAssignments Samples.db_loose no_faults (Some "s"))
    = Ok l
    ∧ join (student_subs Samples.db_loose "s")
        (decorate coursesMap JUndef Samples.a_loose) ∈ l
    ∧ EvGet "courses/undefined"
        ∈ events_of
            (fetchStudentAssignments Samples.db_loose no_faults (Some "s")).
Proof.
  apply (missing_course_id_matches Samples.db_loose no_faults "s"
           "e9" Samples.e_loose.2 "a9" Samples.a_loose.2);
    try reflexivity; try discriminate; try (intros n; reflexivity).
  - left.
  - left.
Defined.

(** * Properties of the assignment form *)

Import Uploader.



Lemma trim_start_head s c rest :
  trim_start s = String c rest → js_space c = false.
Proof.
  induction s as [|c' rest' IH]; simpl; [done|].
  destruct (js_space c') eqn:Hc'; [done|]. by intros [= <- _].
Qed.


















